(** * school-attendance-backend: the attendance ledger and the voice sample store

    A shallow embedding of [src/server.js].  The Express handlers become
    functions from a request, the readings of the environment (clock, outcome
    of the file write, answers of the libraries) and the server state to an
    outcome and a new state.

    Conventions.
    - A JavaScript string is a [string]: a sequence of code units below 256.
    - A JavaScript value is a [jsval]; [JUndef] is [undefined].  Numbers that
      occur in request bodies are integers.
    - The spreadsheet library is an external collaborator.  A worksheet is
      an ordered table of rows.  The sheet that this process creates has
      column keys, and [addRow] with an object fills its cells by key; the
      file does not store the keys, so on a sheet read from the file the
      same [addRow] adds a row without cells, and such a row is not written
      to the file.  A cell gives back text, numbers and booleans as they
      were set, and nothing for [null]; what it gives back for an array or
      an object, and what the file gives back for any value, is an answer of
      the library that the handler's model takes from its environment.
    - The upload library writes the file to the directory joined with the
      generated name, on a file system with [/] as separator and names that
      differ in case kept apart.  Whether the write completes is read from
      the environment.
    - A thrown exception is an outcome of its own ([Raised]); the state that
      comes with it is the state at the point of the throw. *)

From Stdlib Require Import ZArith NArith Ascii String DecimalString DecimalN.
From stdpp Require Import gmap strings list fin_maps.

Local Open Scope string_scope.
Local Open Scope list_scope.

(** ** JavaScript values *)

Module JS.

#[warnings="-register-all"]
Inductive jsval : Type :=
| JUndef
| JNull
| JBool (b : bool)
| JNum (z : Z)
| JStr (s : string)
| JArr (items : list jsval)
| JObj (props : list (string * jsval)).

Inductive js_error : Type :=
| TypeError
| RangeError
| IOError.

(** Either a value or a thrown exception. *)
Inductive res (A : Type) : Type :=
| Ok (a : A)
| Throw (e : js_error).
Arguments Ok {A} a.
Arguments Throw {A} e.

Definition bind {A B} (m : res A) (k : A -> res B) : res B :=
  match m with
  | Ok a => k a
  | Throw e => Throw e
  end.

Notation "'do' x <- m ; k" := (bind m (fun x => k))
  (at level 10, x name, m at level 100, k at level 200).

(** [xs.map(f)] for a callback that may throw: the first exception ends the
    traversal. *)
Fixpoint map_res {A B} (f : A -> res B) (xs : list A) : res (list B) :=
  match xs with
  | [] => Ok []
  | x :: xs' => do y <- f x; do ys <- map_res f xs'; Ok (y :: ys)
  end.

(** Own property of an object produced by [JSON.parse]. *)
Fixpoint own_prop (k : string) (props : list (string * jsval)) : jsval :=
  match props with
  | [] => JUndef
  | (k', v) :: rest => if String.eqb k k' then v else own_prop k rest
  end.

(** The property names the handlers read.  None of them is a built-in
    property of arrays, strings, numbers or booleans, so reading one from a
    primitive or an array gives [undefined]. *)
Inductive field : Type :=
| f_events | f_device_id | f_token_or_pin | f_extras | f_entered_pin | f_method.

Definition field_name (f : field) : string :=
  match f with
  | f_events => "events"
  | f_device_id => "device_id"
  | f_token_or_pin => "token_or_pin"
  | f_extras => "extras"
  | f_entered_pin => "entered_pin"
  | f_method => "method"
  end.

(** [v.f]: reading a property of [undefined] or [null] throws. *)
Definition get (v : jsval) (f : field) : res jsval :=
  match v with
  | JUndef | JNull => Throw TypeError
  | JObj props => Ok (own_prop (field_name f) props)
  | JBool _ | JNum _ | JStr _ | JArr _ => Ok JUndef
  end.

(** [v[0]] *)
Definition get0 (v : jsval) : res jsval :=
  match v with
  | JUndef | JNull => Throw TypeError
  | JArr items => Ok (match items with x :: _ => x | [] => JUndef end)
  | JObj props => Ok (own_prop "0" props)
  | JStr s => Ok (match s with String c _ => JStr (String c "") | "" => JUndef end)
  | JBool _ | JNum _ => Ok JUndef
  end.

(** ToBoolean *)
Definition truthy (v : jsval) : bool :=
  match v with
  | JUndef | JNull => false
  | JBool b => b
  | JNum z => negb (Z.eqb z 0)
  | JStr s => negb (String.eqb s "")
  | JArr _ | JObj _ => true
  end.

(** Values on which a property read throws. *)
Definition nullish (v : jsval) : bool :=
  match v with
  | JUndef | JNull => true
  | _ => false
  end.

(** [a !== b] on values that are a string or [undefined]. *)
Definition strict_neq (a b : option string) : bool :=
  match a, b with
  | None, None => false
  | Some x, Some y => negb (String.eqb x y)
  | _, _ => true
  end.

(** [s || dflt] for a string or [undefined]. *)
Definition or_default (s : option string) (dflt : string) : string :=
  match s with
  | Some x => if String.eqb x "" then dflt else x
  | None => dflt
  end.

End JS.
Export JS.

(** ** Outcome of a handler *)

Inductive outcome : Type :=
| Responded (status : nat) (body : jsval)
| Raised (e : js_error).

(** Status seen by the client.  An exception that escapes a synchronous
    handler reaches the framework's default error handler, which answers
    500 for an error that carries no status of its own. *)
Definition http_status (o : outcome) : nat :=
  match o with
  | Responded status _ => status
  | Raised _ => 500
  end.

Definition client_error (o : outcome) : bool :=
  (400 <=? http_status o)%nat && (http_status o <? 500)%nat.

(** ** Ledger store (lines 33-86, 166-180) *)

Module Ledger.

(** A row of the sheet: the cells of columns 1 to 5. *)
Record row : Type := Row { c1 : jsval; c2 : jsval; c3 : jsval; c4 : jsval; c5 : jsval }.

(** The object handed to [addRow] and the object built by the dashboard. *)
Record AttendanceRecord : Type := Record_ {
  timestamp : jsval;
  device_id : jsval;
  token : jsval;
  pin : jsval;
  method : jsval
}.

Definition blank_row : row := Row JUndef JUndef JUndef JUndef JUndef.

(** A worksheet.  [Keyed] is the sheet this process created, with the
    column keys of lines 43-49.  [Loaded] is a sheet read from the file: it
    has no column keys, and after the rows of the file come the rows that
    [addRow] has added since, which have no cells. *)
Inductive worksheet : Type :=
| Keyed (rows : list row)
| Loaded (rows : list row) (blanks : nat).

(** The rows of the sheet, row 1 first. *)
Definition sheet_rows (sh : worksheet) : list row :=
  match sh with
  | Keyed rows => rows
  | Loaded rows blanks => rows ++ replicate blanks blank_row
  end.

Definition Workbook : Type := list (string * worksheet).

(** The content of attendance.xlsx: for each sheet, its rows as
    [readFile] will give them. *)
Definition xlsx : Type := list (string * list row).

Record state : Type := State {
  workbook : Workbook;        (* the global [workbook] *)
  excelFile : option xlsx     (* attendance.xlsx, when it exists *)
}.

Definition new_Workbook : Workbook := [].

Fixpoint getWorksheet (name : string) (wb : Workbook) : option worksheet :=
  match wb with
  | [] => None
  | (n, sh) :: rest => if String.eqb name n then Some sh else getWorksheet name rest
  end.

(** Row 1 written by [sheet.columns = ...] (lines 43-49). *)
Definition header_row : row :=
  Row (JStr "Timestamp") (JStr "Device ID") (JStr "QR Token") (JStr "PIN") (JStr "Method").

(** What the row gives back for a cell that [addRow] set to [v]:
    [undefined] sets no cell and a null cell is not among the values of the
    row; text, numbers and booleans are given back as set; for an array or
    an object the library answers ([held]). *)
Definition cell_value (held : jsval -> jsval) (v : jsval) : jsval :=
  match v with
  | JUndef | JNull => JUndef
  | JBool _ | JNum _ | JStr _ => v
  | JArr _ | JObj _ => held v
  end.

(** Column keys of lines 43-49: timestamp, device_id, token, pin, method
    name the columns 1 to 5. *)
Definition row_of_record (held : jsval -> jsval) (r : AttendanceRecord) : row :=
  Row (cell_value held (timestamp r)) (cell_value held (device_id r))
      (cell_value held (token r)) (cell_value held (pin r)) (cell_value held (method r)).

(** [sheet.addRow(r)] with an object [r]: the cells are filled through the
    column keys; without keys the new row has no cells.  The timestamp of
    [r] is text, so a row added through the keys has a cell. *)
Definition sheet_addRow (held : jsval -> jsval) (r : AttendanceRecord) (sh : worksheet)
    : worksheet :=
  match sh with
  | Keyed rows => Keyed (rows ++ [row_of_record held r])
  | Loaded rows blanks => Loaded rows (S blanks)
  end.

(** [sheet.addRow(r)] on the sheet called [name]. *)
Fixpoint addRow (held : jsval -> jsval) (name : string) (r : AttendanceRecord)
    (wb : Workbook) : Workbook :=
  match wb with
  | [] => []
  | (n, sh) :: rest =>
      if String.eqb name n then (n, sheet_addRow held r sh) :: rest
      else (n, sh) :: addRow held name r rest
  end.

(** What the file gives back for a cell with value [v]: nothing where
    there is no value, and otherwise the answer of the library
    ([reread]). *)
Definition file_cell (reread : jsval -> jsval) (v : jsval) : jsval :=
  match v with
  | JUndef => JUndef
  | _ => reread v
  end.

Definition file_row (reread : jsval -> jsval) (r : row) : row :=
  Row (file_cell reread (c1 r)) (file_cell reread (c2 r)) (file_cell reread (c3 r))
      (file_cell reread (c4 r)) (file_cell reread (c5 r)).

(** The rows of a sheet that are written: those with cells. *)
Definition written_rows (sh : worksheet) : list row :=
  match sh with
  | Keyed rows => rows
  | Loaded rows _ => rows
  end.

(** [workbook.xlsx.writeFile]: the whole workbook is written. *)
Definition writeFile (reread : jsval -> jsval) (wb : Workbook) : xlsx :=
  map (fun nsh => (nsh.1, map (file_row reread) (written_rows nsh.2))) wb.

(** [workbook.xlsx.readFile]: the sheets come back without column keys. *)
Definition readFile (f : xlsx) : Workbook :=
  map (fun nrows => (nrows.1, Loaded nrows.2 0)) f.

(** [initExcel] (lines 36-53).  The header texts are written as they
    are. *)
Definition initExcel (st : state) : state :=
  match excelFile st with
  | Some f => State (readFile f) (Some f)
  | None =>
      State [("Attendance", Keyed [header_row])] (Some [("Attendance", [header_row])])
  end.

(** Process start: line 34 followed by line 55. *)
Definition start (disk : option xlsx) : state :=
  initExcel (State new_Workbook disk).

Definition restart (st : state) : state := start (excelFile st).

End Ledger.
Export Ledger.

(** ** Device ingest endpoint (lines 60-86) and dashboard (lines 166-180) *)

Module Ingest.

Record request : Type := Request {
  x_device_key : option string;   (* req.headers["x-device-key"] *)
  body : jsval                    (* req.body *)
}.

(** What the handler reads from its environment while it runs. *)
Record env : Type := Env {
  now_iso : string;          (* new Date().toISOString() *)
  write_ok : bool;           (* whether workbook.xlsx.writeFile completes *)
  held : jsval -> jsval;     (* what a cell gives back for an array or object *)
  reread : jsval -> jsval    (* what the written file gives back for a value *)
}.

Definition invalid_key : jsval := JObj [("error", JStr "invalid key")].

Definition saved : jsval :=
  JObj [("results",
         JArr [JObj [("ok", JBool true); ("message", JStr "Attendance saved to Excel")]])].

(** [req.body.events[0]] (line 66). *)
Definition first_event (b : jsval) : res jsval :=
  do evs <- get b f_events; get0 evs.

(** [event.extras ? event.extras.entered_pin : ""] (line 75). *)
Definition pin_of (event : jsval) : res jsval :=
  do x <- get event f_extras;
  if truthy x then get x f_entered_pin else Ok (JStr "").

(** The object literal of lines 71-77, fields evaluated in order. *)
Definition build_record (now : string) (b event : jsval) : res AttendanceRecord :=
  do d <- get b f_device_id;
  do t <- get event f_token_or_pin;
  do p <- pin_of event;
  do m <- get event f_method;
  Ok (Record_ (JStr now) d t p m).

(** POST /api/device/event.  A failed write throws after the row was added
    in memory; the file then keeps its previous content. *)
Definition device_event (DEVICE_API_KEY : option string) (e : env) (req : request)
    (st : state) : outcome * state :=
  if strict_neq (x_device_key req) DEVICE_API_KEY then (Responded 401 invalid_key, st)
  else
    match first_event (body req) with
    | Throw err => (Raised err, st)
    | Ok event =>
        match getWorksheet "Attendance" (workbook st) with
        | None => (Raised TypeError, st)
        | Some _ =>
            match build_record (now_iso e) (body req) event with
            | Throw err => (Raised err, st)
            | Ok r =>
                let wb := addRow (held e) "Attendance" r (workbook st) in
                if write_ok e
                then (Responded 200 saved, State wb (Some (writeFile (reread e) wb)))
                else (Raised IOError, State wb (excelFile st))
            end
        end
    end.

Definition record_of_row (r : row) : AttendanceRecord :=
  Record_ (c1 r) (c2 r) (c3 r) (c4 r) (c5 r).

(** The Ledger's listAll: [sheet.getSheetValues().slice(2).map(...)].
    Index 0 of the sheet values is empty and index 1 is row 1, the header. *)
Definition listAll (st : state) : res (list AttendanceRecord) :=
  match getWorksheet "Attendance" (workbook st) with
  | None => Throw TypeError
  | Some sh => Ok (map record_of_row (drop 1 (sheet_rows sh)))
  end.

Definition record_json (r : AttendanceRecord) : jsval :=
  JObj [("timestamp", timestamp r); ("device_id", device_id r); ("token", token r);
        ("pin", pin r); ("method", method r)].

(** GET /api/attendance. *)
Definition api_attendance (st : state) : outcome :=
  match listAll st with
  | Ok rs => Responded 200 (JArr (map record_json rs))
  | Throw err => Raised err
  end.

(** The ledger has been initialised: the Attendance sheet exists and has
    its header row, as [initExcel] leaves it. *)
Definition initialised (st : state) : bool :=
  match getWorksheet "Attendance" (workbook st) with
  | Some sh => match sheet_rows sh with _ :: _ => true | [] => false end
  | None => false
  end.

(** The Attendance sheet is the one this process created, with its column
    keys. *)
Definition has_keys (st : state) : bool :=
  match getWorksheet "Attendance" (workbook st) with
  | Some (Keyed _) => true
  | _ => false
  end.

(** A record as it is listed from the row that [addRow] fills through the
    column keys. *)
Definition record_cells (held : jsval -> jsval) (r : AttendanceRecord) : AttendanceRecord :=
  record_of_row (row_of_record held r).

(** The record of a row without cells. *)
Definition blank_record : AttendanceRecord := record_of_row blank_row.

(** A record as it is listed once the file has been read back. *)
Definition record_image (reread : jsval -> jsval) (r : AttendanceRecord) : AttendanceRecord :=
  Record_ (file_cell reread (timestamp r)) (file_cell reread (device_id r))
          (file_cell reread (token r)) (file_cell reread (pin r))
          (file_cell reread (method r)).

(** The record a request asks to append. *)
Definition requested_record (er : env * request) : res AttendanceRecord :=
  do event <- first_event (body er.2); build_record (now_iso er.1) (body er.2) event.


(** A sequence of ingest requests handled one after the other. *)
Fixpoint run (key : option string) (reqs : list (env * request)) (st : state)
    : list outcome * state :=
  match reqs with
  | [] => ([], st)
  | er :: rest =>
      let '(o, st1) := device_event key er.1 er.2 st in
      let '(os, st2) := run key rest st1 in
      (o :: os, st2)
  end.

(** Whether the outcome is one of a call that added a row: the success
    response, or the exception of the write that follows [addRow]. *)
Definition added (o : outcome) : bool :=
  match o with
  | Responded 200 _ => true
  | Raised IOError => true
  | _ => false
  end.

End Ingest.
Export Ingest.

(** ** String operations used by the voice listing *)

Module Str.

(** [s.endsWith(suffix)] *)
Fixpoint endsWith (s suffix : string) : bool :=
  if String.eqb s suffix then true
  else match s with
       | "" => false
       | String _ s' => endsWith s' suffix
       end.

(** [Some rest] when [s] is [p] followed by [rest]. *)
Fixpoint drop_prefix (p s : string) : option string :=
  match p, s with
  | "", _ => Some s
  | String a p', String b s' => if Ascii.eqb a b then drop_prefix p' s' else None
  | String _ _, "" => None
  end.

(** [s.replace(pat, '')]: only the first occurrence of [pat] is removed. *)
Fixpoint remove_first (pat s : string) : string :=
  match drop_prefix pat s with
  | Some rest => rest
  | None =>
      match s with
      | "" => ""
      | String c s' => String c (remove_first pat s')
      end
  end.

(** [s.split(sep)] for a one-character separator. *)
Fixpoint split (sep : ascii) (s : string) : list string :=
  match s with
  | "" => [""]
  | String c s' =>
      if Ascii.eqb c sep then "" :: split sep s'
      else match split sep s' with
           | h :: t => String c h :: t
           | [] => [String c ""]
           end
  end.

(** Whether the character [c] occurs in [s]. *)
Fixpoint has_char (c : ascii) (s : string) : bool :=
  match s with
  | "" => false
  | String x s' => Ascii.eqb x c || has_char c s'
  end.

(** [`${n}`] for a non-negative integer below 10^21: its decimal digits. *)
Definition digits (n : N) : string := NilZero.string_of_uint (N.to_uint n).

End Str.

(** ** [Number(s)] and [Date] *)

Module Num.

(** A numeric value before rounding: [Dec neg m e] is [m * 10^e], negated
    when [neg]. *)
Inductive jsnum : Type :=
| NaN
| Infinity (neg : bool)
| Dec (neg : bool) (m : N) (e : Z).

(** StrWhiteSpaceChar below 256: TAB, LF, VT, FF, CR, SP, NBSP. *)
Definition is_ws (c : ascii) : bool :=
  let n := N_of_ascii c in
  ((9 <=? n) && (n <=? 13) || (n =? 32) || (n =? 160))%N.

Fixpoint trim_start (s : string) : string :=
  match s with
  | String c s' => if is_ws c then trim_start s' else s
  | "" => ""
  end.

Fixpoint trim_end (s : string) : string :=
  match s with
  | "" => ""
  | String c s' =>
      match trim_end s' with
      | "" => if is_ws c then "" else String c ""
      | t => String c t
      end
  end.

Definition is_digit (c : ascii) : bool :=
  let n := N_of_ascii c in ((48 <=? n) && (n <=? 57))%N.

Fixpoint all_digits (s : string) : bool :=
  match s with
  | "" => true
  | String c s' => is_digit c && all_digits s'
  end.

(** Longest prefix of decimal digits, and what follows it. *)
Fixpoint span_digits (s : string) : string * string :=
  match s with
  | String c s' =>
      if is_digit c then let '(d, r) := span_digits s' in (String c d, r)
      else ("", s)
  | "" => ("", "")
  end.

(** Value of a string of decimal digits. *)
Definition digits_value (s : string) : N :=
  match NilEmpty.uint_of_string s with
  | Some d => N.of_uint d
  | None => 0
  end.

(** Value of a digit in a base up to 16, if it is one. *)
Definition digit_in (base : N) (c : ascii) : option N :=
  let n := N_of_ascii c in
  let v := if ((48 <=? n) && (n <=? 57))%N then Some (n - 48)%N
           else if ((97 <=? n) && (n <=? 102))%N then Some (n - 87)%N
           else if ((65 <=? n) && (n <=? 70))%N then Some (n - 55)%N
           else None in
  match v with
  | Some d => if (d <? base)%N then Some d else None
  | None => None
  end.

Fixpoint radix_value (base acc : N) (s : string) : option N :=
  match s with
  | "" => Some acc
  | String c s' =>
      match digit_in base c with
      | Some d => radix_value base (acc * base + d)%N s'
      | None => None
      end
  end.

(** NonDecimalIntegerLiteral: 0x, 0o or 0b followed by at least one digit. *)
Definition non_decimal (s : string) : option N :=
  match s with
  | String "0" (String p (String c rest)) =>
      let ds := String c rest in
      if (Ascii.eqb p "x" || Ascii.eqb p "X")%bool then radix_value 16 0 ds
      else if (Ascii.eqb p "o" || Ascii.eqb p "O")%bool then radix_value 8 0 ds
      else if (Ascii.eqb p "b" || Ascii.eqb p "B")%bool then radix_value 2 0 ds
      else None
  | _ => None
  end.

(** An optional sign. *)
Definition sign (s : string) : bool * string :=
  match s with
  | String "-" r => (true, r)
  | String "+" r => (false, r)
  | _ => (false, s)
  end.

(** ExponentPart, or nothing: the exponent, when the text is well formed. *)
Definition exponent (s : string) : option Z :=
  match s with
  | "" => Some 0%Z
  | String c r =>
      if (Ascii.eqb c "e" || Ascii.eqb c "E")%bool then
        let '(neg, r1) := sign r in
        let '(ed, r2) := span_digits r1 in
        if (String.eqb ed "" || negb (String.eqb r2 ""))%bool then None
        else Some (if neg then - Z.of_N (digits_value ed) else Z.of_N (digits_value ed))%Z
      else None
  end.

(** StrUnsignedDecimalLiteral other than Infinity: mantissa and exponent. *)
Definition unsigned_decimal (s : string) : option (N * Z) :=
  let '(ip, r1) := span_digits s in
  let '(fp, r2) := match r1 with
                   | String "." r => span_digits r
                   | _ => ("", r1)
                   end in
  if (String.eqb ip "" && String.eqb fp "")%bool then None
  else match exponent r2 with
       | Some e => Some (digits_value (ip +:+ fp), (e - Z.of_nat (String.length fp))%Z)
       | None => None
       end.

(** [Number(s)] for a string (StringToNumber). *)
Definition Number (s : string) : jsnum :=
  let t := trim_end (trim_start s) in
  if String.eqb t "" then Dec false 0 0
  else match non_decimal t with
       | Some n => Dec false n 0
       | None =>
           let '(neg, u) := sign t in
           if String.eqb u "Infinity" then Infinity neg
           else match unsigned_decimal u with
                | Some (m, e) => Dec neg m e
                | None => NaN
                end
       end.

(** A [Date] object: its time value, or the invalid date. *)
Inductive date : Type :=
| ValidDate (n : jsnum)
| InvalidDate.

(** TimeClip after rounding to a double: the time value is valid when it is
    finite and at most 8.64e15 in magnitude.  The doubles around 8.64e15 are
    the integers and 8.64e15 is even, so a number rounds to a double within
    range exactly when its magnitude is at most 8.64e15 + 1/2. *)
Definition valid_time (n : jsnum) : bool :=
  match n with
  | NaN | Infinity _ => false
  | Dec _ m e =>
      if (0 <=? e)%Z then (m * 10 ^ Z.to_N e <=? 8640000000000000)%N
      else (2 * m <=? 17280000000000001 * 10 ^ Z.to_N (- e))%N
  end.

(** [new Date(n)] *)
Definition new_Date (n : jsnum) : date :=
  if valid_time n then ValidDate n else InvalidDate.

(** An ISO-8601 text, given by the number whose date it renders. *)
Inductive iso : Type := IsoOf (n : jsnum).

(** [d.toISOString()] throws on the invalid date. *)
Definition toISOString (d : date) : res iso :=
  match d with
  | ValidDate n => Ok (IsoOf n)
  | InvalidDate => Throw RangeError
  end.

End Num.

(** ** Voice sample store (lines 91-161) *)

Module Voice.
Import Str Num.

Definition blob : Type := list Byte.byte.

(** The voices directory: absent, or the files it holds by name. *)
Definition store : Type := option (gmap string blob).

(** A multipart upload as the storage callbacks see it when the file part
    named [audio] arrives: the text fields [student_id] and [type] that
    [req.body] holds at that moment, which are those sent ahead of the file
    part (each at most once), and the file part itself. *)
Record upload : Type := Upload {
  student_id : option string;
  type : option string;
  audio : option blob
}.

(** [storage.filename] (lines 99-104); [now] is [Date.now()]. *)
Definition filename (req : upload) (now : N) : string :=
  or_default (student_id req) "unknown" +:+ "_" +:+
  or_default (type req) "check" +:+ "_" +:+ digits now +:+ ".webm".

(** [storage.destination] (lines 92-98): the directory is created when it
    does not exist. *)
Definition destination (dir : store) : gmap string blob :=
  match dir with
  | Some d => d
  | None => ∅
  end.

(** What the file system does with the write of an upload. *)
Record disk : Type := Disk {
  completes : bool;   (* the directory can be made and the write of the file
                         completes; it cannot for a name that the file
                         system refuses *)
  leaves : store      (* the directory afterwards, when the write fails or
                         when the generated name is not the name of an
                         entry of the directory *)
}.

Inductive upload_result : Type :=
| NoFile                    (* [req.file] is undefined *)
| Stored (name : string)    (* [req.file.filename] *)
| WriteFailed.              (* the error is passed on, the handler is not run *)

(** [upload.single('audio')].  Without a file part nothing is written.
    With one, the directory is made sure to exist and the file is written
    to the directory joined with the generated name: a name without [/] is
    an entry of the directory, and a completed write leaves the content
    under it. *)
Definition upload_single (now : N) (fs : disk) (req : upload) (dir : store)
    : upload_result * store :=
  match audio req with
  | Some b =>
      let d := destination dir in
      let name := filename req now in
      if completes fs then
        if has_char "/" name then (Stored name, leaves fs)
        else (Stored name, Some (<[name := b]> d))
      else (WriteFailed, leaves fs)
  | None => (NoFile, dir)
  end.

Definition uploaded (message name : string) : jsval :=
  JObj [("ok", JBool true); ("message", JStr message); ("file", JStr name)].

(** The two upload handlers differ in their message only; [req.file.filename]
    throws when [req.file] is undefined. *)
Definition voice_handler (message : string) (now : N) (fs : disk) (req : upload)
    (dir : store) : outcome * store :=
  let '(file, dir') := upload_single now fs req dir in
  match file with
  | Stored name => (Responded 200 (uploaded message name), dir')
  | NoFile => (Raised TypeError, dir')
  | WriteFailed => (Raised IOError, dir')
  end.

(** POST /api/voice/enroll (lines 112-119). *)
Definition voice_enroll : N -> disk -> upload -> store -> outcome * store :=
  voice_handler "Voice enrolled and saved".

(** POST /api/voice/check (lines 124-131). *)
Definition voice_check : N -> disk -> upload -> store -> outcome * store :=
  voice_handler "Voice sample saved for review".

(** One element of the listing. *)
Record descriptor : Type := Descriptor {
  d_student_id : string;
  d_type : string;
  d_filename : string;
  d_url : string;
  d_timestamp : option iso    (* [None] is null *)
}.

(** [f.replace('.webm', '').split('_')] (line 146). *)
Definition parts_of (f : string) : list string :=
  split "_" (remove_first ".webm" f).

(** [parts[i] || 'unknown'] (lines 147-148). *)
Definition part_or_unknown (parts : list string) (i : nat) : string :=
  or_default (parts !! i) "unknown".

(** [parts[2] ? new Date(Number(parts[2])) : null] (line 149). *)
Definition ts_of (parts : list string) : option date :=
  match parts !! 2%nat with
  | Some s => if String.eqb s "" then None else Some (new_Date (Number s))
  | None => None
  end.

(** The callback of [files.map] (lines 144-158). *)
Definition describe (f : string) : res descriptor :=
  let parts := parts_of f in
  let sid := part_or_unknown parts 0 in
  let ty := part_or_unknown parts 1 in
  let ts := ts_of parts in
  do t <- match ts with
          | Some d => do i <- toISOString d; Ok (Some i)
          | None => Ok None
          end;
  Ok (Descriptor sid ty f ("/voices/" +:+ f) t).

(** [fs.readdirSync(dir)]: the names, in the order of the file system. *)
Definition readdirSync (d : gmap string blob) : list string :=
  (map_to_list d).*1.

(** The voice listAll, GET /api/voices (lines 136-161): the list that
    [res.json] sends, or the exception that ends the handler. *)
Definition listAll (dir : store) : res (list descriptor) :=
  match dir with
  | None => Ok []
  | Some d =>
      let files := filter (fun f => endsWith f ".webm" = true) (readdirSync d) in
      map_res describe files
  end.

End Voice.

(** ** Sample inputs *)

Module Sample.
Import Voice.

Definition key : string := "secret".

(** Answers of the spreadsheet library on the values of the samples: a
    cell gives an object back as it was set; the file gives text back
    unchanged and the empty object as its JSON text. *)
Definition as_set (v : jsval) : jsval := v.

Definition as_stored (v : jsval) : jsval :=
  match v with
  | JObj [] => JStr "{}"
  | _ => v
  end.

Definition env1 : env := Env "2026-01-05T08:00:00.000Z" true as_set as_stored.

Definition event_qr : jsval :=
  JObj [("token_or_pin", JStr "ABC123"); ("method", JStr "qr")].

Definition event_pin : jsval :=
  JObj [("token_or_pin", JStr "7"); ("method", JStr "pin");
        ("extras", JObj [("entered_pin", JStr "4321")])].

(** An event whose extras carry no entered pin. *)
Definition event_extras_only : jsval :=
  JObj [("token_or_pin", JStr "ABC123"); ("method", JStr "qr"); ("extras", JObj [])].



Definition payload (events : list jsval) : jsval :=
  JObj [("device_id", JStr "D1"); ("events", JArr events)].

Definition ingest (hdr : option string) (events : list jsval) : request :=
  Request hdr (payload events).

Definition record_qr : AttendanceRecord :=
  Record_ (JStr "2026-01-05T08:00:00.000Z") (JStr "D1") (JStr "ABC123") (JStr "") (JStr "qr").

Definition record_pin : AttendanceRecord :=
  Record_ (JStr "2026-01-05T08:00:00.000Z") (JStr "D1") (JStr "7") (JStr "4321") (JStr "pin").

(** The file that a process started without one leaves after saving
    [record_qr]. *)
Definition file_qr : xlsx :=
  [("Attendance", [header_row; row_of_record as_set record_qr])].

(** The ledger of the process that created the file. *)
Definition state_qr : state :=
  State [("Attendance", Keyed [header_row; row_of_record as_set record_qr])] (Some file_qr).

(** The workbook has a row that the file does not have yet. *)
Definition state_lagging : state :=
  State [("Attendance", Keyed [header_row; row_of_record as_set record_qr])]
        (Some [("Attendance", [header_row])]).

Definition env_write_fails : env :=
  Env "2026-01-05T08:00:01.000Z" false as_set as_stored.

Definition audio1 : blob := [Byte.x1a; Byte.x45].

Definition audio2 : blob := [Byte.x00].

(** A file system on which the write completes. *)
Definition disk_ok : disk := Disk true None.

Definition t0 : N := 1700000000000.

(** A directory with one well-named sample and one whose third segment is
    not a number. *)
Definition dir_abc : gmap string blob :=
  <["S1_enroll_abc.webm" := audio1]> (<["S42_enroll_1700000000000.webm" := audio1]> ∅).

Definition dir_good : store :=
  Some (<["S7_check_1690000000000.webm" := audio1]> ∅).

End Sample.

(** * Properties *)

(** ** The error monad *)

Lemma bind_Ok {A B} (m : res A) (k : A -> res B) (b : B) :
  bind m k = Ok b -> exists a, m = Ok a /\ k a = Ok b.
Proof. destruct m as [a|err]; simpl; [eauto | discriminate]. Qed.

Lemma get_not_nullish v f : nullish v = false -> exists w, get v f = Ok w.
Proof. destruct v; simpl; intros H; try discriminate; eauto. Qed.

Lemma get_Ok_not_nullish v f w : get v f = Ok w -> nullish v = false.
Proof. destruct v; simpl; intros H; try discriminate; reflexivity. Qed.

Lemma truthy_not_nullish v : truthy v = true -> nullish v = false.
Proof. destruct v; simpl; intros H; try discriminate; reflexivity. Qed.

(** ** Ledger store *)

Section LedgerFacts.

Lemma getWorksheet_addRow hd name r wb sh :
  getWorksheet name wb = Some sh ->
  getWorksheet name (addRow hd name r wb) = Some (sheet_addRow hd r sh).
Proof.
  induction wb as [|[n s] rest IH]; simpl; [discriminate|].
  destruct (String.eqb name n) eqn:E; simpl; rewrite E; [|exact IH].
  intros H; injection H as ->; reflexivity.
Qed.

Lemma getWorksheet_addRow_None hd name r wb :
  getWorksheet name wb = None -> addRow hd name r wb = wb.
Proof.
  induction wb as [|[n s] rest IH]; simpl; [reflexivity|].
  destruct (String.eqb name n); [discriminate|]. intros H. rewrite (IH H). reflexivity.
Qed.

(** The row that [addRow] puts at the end of the sheet. *)
Lemma sheet_rows_addRow hd r sh :
  sheet_rows (sheet_addRow hd r sh)
  = sheet_rows sh ++ [match sh with Keyed _ => row_of_record hd r | Loaded _ _ => blank_row end].
Proof.
  destruct sh as [rows|rows blanks]; cbn [sheet_rows sheet_addRow]; [reflexivity|].
  rewrite replicate_S_end, app_assoc. reflexivity.
Qed.


(** Adding a row below row 1 adds one record at the end of the listing:
    the cells of the record on the sheet with keys, no cell on the other. *)
Lemma listAll_addRow st hd r recs disk :
  initialised st = true ->
  Ingest.listAll st = Ok recs ->
  Ingest.listAll (State (addRow hd "Attendance" r (workbook st)) disk)
    = Ok (recs ++ [if has_keys st then record_cells hd r else blank_record]) /\
  initialised (State (addRow hd "Attendance" r (workbook st)) disk) = true /\
  has_keys (State (addRow hd "Attendance" r (workbook st)) disk) = has_keys st.
Proof.
  unfold initialised, Ingest.listAll, has_keys; simpl.
  destruct (getWorksheet "Attendance" (workbook st)) as [sh|] eqn:E; [|discriminate].
  intros Hne H. injection H as <-.
  rewrite (getWorksheet_addRow hd _ r _ _ E), sheet_rows_addRow.
  destruct (sheet_rows sh) as [|hdr rows] eqn:Hrows; [discriminate|].
  cbn [app]. rewrite !skipn_cons, !drop_0, map_app.
  destruct sh; (split_and!; reflexivity).
Qed.



Lemma getWorksheet_read_write rr name wb :
  getWorksheet name (readFile (writeFile rr wb))
  = match getWorksheet name wb with
    | Some sh => Some (Loaded (map (file_row rr) (written_rows sh)) 0)
    | None => None
    end.
Proof.
  induction wb as [|[n s] rest IH]; simpl; [reflexivity|].
  destruct (String.eqb name n); [reflexivity | exact IH].
Qed.

Lemma record_of_file_row rr r :
  record_of_row (file_row rr r) = record_image rr (record_of_row r).
Proof. reflexivity. Qed.

(** The listing after a restart from the file that was written from the
    workbook [wb]: the rows with cells, as the file gives them back. *)
Lemma listAll_restart_written rr wb sh :
  getWorksheet "Attendance" wb = Some sh ->
  Ingest.listAll (restart (State wb (Some (writeFile rr wb))))
  = Ok (map (record_image rr) (map record_of_row (drop 1 (written_rows sh)))).
Proof.
  intros H. unfold restart, start, initExcel, Ingest.listAll. cbn [excelFile workbook].
  rewrite getWorksheet_read_write, H. cbn [sheet_rows replicate].
  rewrite app_nil_r, skipn_map, !map_map. reflexivity.
Qed.

End LedgerFacts.

(** ** Device ingest endpoint *)

Section IngestFacts.

Variable k : string.   (* the configured device key *)

Lemma strict_neq_same : strict_neq (Some k) (Some k) = false.
Proof. simpl. rewrite String.eqb_refl. reflexivity. Qed.



Lemma build_record_inv now b ev r :
  build_record now b ev = Ok r ->
  exists d t p m,
    get b f_device_id = Ok d /\ get ev f_token_or_pin = Ok t /\
    pin_of ev = Ok p /\ get ev f_method = Ok m /\
    r = Record_ (JStr now) d t p m.
Proof.
  unfold build_record. intros H.
  apply bind_Ok in H as (d & Hd & H).
  apply bind_Ok in H as (t & Ht & H).
  apply bind_Ok in H as (p & Hp & H).
  apply bind_Ok in H as (m & Hm & H).
  injection H as <-. exists d, t, p, m. auto.
Qed.

Lemma pin_of_total ev : nullish ev = false -> exists p, pin_of ev = Ok p.
Proof.
  intros H. unfold pin_of.
  destruct (get_not_nullish ev f_extras H) as [x ->]. simpl.
  destruct (truthy x) eqn:T; [|eauto].
  apply get_not_nullish, truthy_not_nullish, T.
Qed.

Lemma build_record_total now b ev w :
  get b f_events = Ok w -> nullish ev = false ->
  exists r, build_record now b ev = Ok r.
Proof.
  intros Hb Hev. unfold build_record.
  destruct (get_not_nullish b f_device_id (get_Ok_not_nullish _ _ _ Hb)) as [d ->].
  destruct (get_not_nullish ev f_token_or_pin Hev) as [t ->].
  destruct (pin_of_total ev Hev) as [p ->].
  destruct (get_not_nullish ev f_method Hev) as [m ->].
  simpl. eauto.
Qed.




(** C2: a request whose key header is missing or differs from the
    configured key is answered 401 and leaves the workbook and the file as
    they were. *)
Theorem bad_key_unauthorized e req st :
  (x_device_key req = None \/ exists h, x_device_key req = Some h /\ h <> k) ->
  device_event (Some k) e req st = (Responded 401 invalid_key, st).
Proof.
  intros [Hk | (h & Hk & Hne)]; unfold device_event; rewrite Hk; simpl; [reflexivity|].
  apply String.eqb_neq in Hne. rewrite Hne. reflexivity.
Qed.

(** C9: with the right key and an empty events list the handler throws a
    TypeError while reading the first event's fields, before any row is
    added; workbook and file are unchanged. *)
Theorem empty_events_raise e req st :
  x_device_key req = Some k ->
  get (body req) f_events = Ok (JArr []) ->
  device_event (Some k) e req st = (Raised TypeError, st).
Proof.
  intros Hk Hevs. unfold device_event, first_event.
  rewrite Hk, strict_neq_same, Hevs. simpl.
  destruct (getWorksheet "Attendance" (workbook st)); [|reflexivity].
  unfold build_record.
  destruct (get_not_nullish _ f_device_id (get_Ok_not_nullish _ _ _ Hevs)) as [d ->].
  reflexivity.
Qed.

End IngestFacts.

Section IngestBatch.

Variable k : string.



End IngestBatch.

Section RoundTrip.

Variable key : option string.   (* DEVICE_API_KEY *)

Lemma device_event_saved e req st st' :
  device_event key e req st = (Responded 200 saved, st') ->
  exists r,
    requested_record (e, req) = Ok r /\
    is_Some (getWorksheet "Attendance" (workbook st)) /\
    st' = State (addRow (held e) "Attendance" r (workbook st))
                (Some (writeFile (reread e) (addRow (held e) "Attendance" r (workbook st)))).
Proof.
  unfold device_event, requested_record. simpl.
  destruct (strict_neq (x_device_key req) key); [discriminate|].
  destruct (first_event (body req)) as [ev|err]; [|discriminate]. simpl.
  destruct (getWorksheet "Attendance" (workbook st)) as [sh|]; [|discriminate].
  destruct (build_record (now_iso e) (body req) ev) as [r|err]; [|discriminate].
  destruct (write_ok e); [|discriminate].
  intros H. injection H as <-. exists r. split_and!; eauto.
Qed.

(** The listing after a restart, when the file was written from the
    workbook and the sheet has its keys: every record is there, as the file
    gives it back. *)
Lemma listAll_restart_keyed st rr recs :
  has_keys st = true ->
  excelFile st = Some (writeFile rr (workbook st)) ->
  Ingest.listAll st = Ok recs ->
  Ingest.listAll (restart st) = Ok (map (record_image rr) recs).
Proof.
  intros Hkeys Hfile Hrecs. unfold has_keys in Hkeys. unfold Ingest.listAll in Hrecs.
  destruct (getWorksheet "Attendance" (workbook st)) as [[rows|rows blanks]|] eqn:Hsh;
    try discriminate.
  injection Hrecs as <-.
  pose proof (listAll_restart_written rr (workbook st) _ Hsh) as H.
  unfold restart in *. cbn [excelFile] in H. rewrite Hfile. exact H.
Qed.



End RoundTrip.

Section IngestPin.

Lemma pin_of_no_extras ev :
  get ev f_extras = Ok JUndef -> pin_of ev = Ok (JStr "").
Proof. unfold pin_of. intros ->. reflexivity. Qed.

Lemma pin_of_extras_without_pin ev props :
  get ev f_extras = Ok (JObj props) ->
  own_prop "entered_pin" props = JUndef ->
  pin_of ev = Ok JUndef.
Proof. unfold pin_of. intros -> H. simpl. rewrite H. reflexivity. Qed.

(** C7: an event whose extras object carries no entered pin is saved with
    an undefined pin, not with the empty string. *)
Theorem pin_undefined_when_extras_lack_pin :
  exists st',
    device_event (Some Sample.key) Sample.env1
      (Sample.ingest (Some Sample.key) [Sample.event_extras_only]) (start None)
      = (Responded 200 saved, st') /\
    Ingest.listAll st' =
      Ok [Record_ (JStr "2026-01-05T08:00:00.000Z") (JStr "D1") (JStr "ABC123")
            JUndef (JStr "qr")].
Proof. eexists. split; reflexivity. Qed.

End IngestPin.

(** ** Instances and counterexamples on the sample inputs *)



Lemma bad_key_unauthorized_witness :
  device_event (Some Sample.key) Sample.env1
    (Sample.ingest (Some "guess") [Sample.event_qr]) Sample.state_qr
  = (Responded 401 invalid_key, Sample.state_qr).
Proof.
  apply (bad_key_unauthorized Sample.key). right. exists "guess". split; [reflexivity|].
  discriminate.
Defined.

Lemma empty_events_raise_witness :
  device_event (Some Sample.key) Sample.env1 (Sample.ingest (Some Sample.key) [])
    Sample.state_qr
  = (Raised TypeError, Sample.state_qr).
Proof. apply (empty_events_raise Sample.key); reflexivity. Defined.





(** ** Strings *)

Section StringFacts.
Import Str.

Lemma app_cons c (a b : string) : String c a +:+ b = String c (a +:+ b).
Proof. reflexivity. Qed.

Lemma app_empty_r (s : string) : s +:+ "" = s.
Proof. induction s as [|c s IH]; [reflexivity | rewrite app_cons, IH; reflexivity]. Qed.

Lemma app_assoc_str (a b c : string) : (a +:+ b) +:+ c = a +:+ (b +:+ c).
Proof. induction a as [|x a IH]; [reflexivity | rewrite !app_cons, IH; reflexivity]. Qed.

Lemma endsWith_app p suffix : endsWith (p +:+ suffix) suffix = true.
Proof.
  induction p as [|c p IH].
  - change ("" +:+ suffix) with suffix.
    destruct suffix; simpl; rewrite ?Ascii.eqb_refl, ?String.eqb_refl; reflexivity.
  - rewrite app_cons.
    change (endsWith (String c (p +:+ suffix)) suffix)
      with (if String.eqb (String c (p +:+ suffix)) suffix then true
            else endsWith (p +:+ suffix) suffix).
    rewrite IH. destruct (String.eqb (String c (p +:+ suffix)) suffix); reflexivity.
Qed.

(** Text without a dot is copied by [replace('.webm', '')]. *)
Lemma remove_first_pass a t :
  has_char "." a = false ->
  remove_first ".webm" (a +:+ t) = a +:+ remove_first ".webm" t.
Proof.
  induction a as [|c a IH]; intros H; [reflexivity|].
  cbn [has_char] in H. apply orb_false_iff in H as [Hc Ha].
  rewrite !app_cons, <- (IH Ha). cbn [remove_first drop_prefix].
  rewrite Ascii.eqb_sym, Hc. reflexivity.
Qed.

Lemma remove_first_suffix a :
  has_char "." a = false -> remove_first ".webm" (a +:+ ".webm") = a.
Proof. intros H. rewrite (remove_first_pass _ _ H). apply app_empty_r. Qed.

(** The text before the first underscore is the first segment. *)
Lemma split_pass a t :
  has_char "_" a = false ->
  split "_" (a +:+ String "_" t) = a :: split "_" t.
Proof.
  induction a as [|c a IH]; intros H; [reflexivity|].
  cbn [has_char] in H. apply orb_false_iff in H as [Hc Ha].
  rewrite app_cons. cbn [split]. rewrite Hc, (IH Ha). reflexivity.
Qed.

Lemma split_plain a : has_char "_" a = false -> split "_" a = [a].
Proof.
  induction a as [|c a IH]; intros H; [reflexivity|].
  cbn [has_char] in H. apply orb_false_iff in H as [Hc Ha].
  cbn [split]. rewrite Hc, (IH Ha). reflexivity.
Qed.

(** A text is its first segment, alone or followed by an underscore. *)
Lemma split_head s :
  exists h tl,
    split "_" s = h :: tl /\ has_char "_" h = false /\
    (s = h \/ exists t, s = h +:+ String "_" t).
Proof.
  induction s as [|c s (h & tl & Hs & Hh & Hd)].
  - exists "", []. auto.
  - cbn [split]. destruct (Ascii.eqb c "_") eqn:Hc.
    + apply Ascii.eqb_eq in Hc as ->. exists "", (split "_" s).
      split_and!; [reflexivity | reflexivity | right; exists s; reflexivity].
    + rewrite Hs. exists (String c h), tl. cbn [has_char]. rewrite Hc, Hh.
      split_and!; [reflexivity | reflexivity |].
      destruct Hd as [-> | [t ->]]; [left | right; exists t]; reflexivity.
Qed.

End StringFacts.

(** ** [Number] on the digits of a timestamp *)

Section NumberFacts.
Import Str Num.

Lemma is_digit_cases c :
  is_digit c = true ->
  In c ["0"; "1"; "2"; "3"; "4"; "5"; "6"; "7"; "8"; "9"]%char.
Proof.
  destruct c as [[] [] [] [] [] [] [] []]; intros H; vm_compute in H;
    try discriminate H; simpl; tauto.
Qed.

(** Settles by computation a goal about a character known to be a digit. *)
Ltac by_digit H :=
  apply is_digit_cases in H; simpl in H; intuition (subst; reflexivity).

Lemma digit_no_char x c :
  is_digit c = true -> is_digit x = false -> Ascii.eqb c x = false.
Proof.
  intros Hc Hx. destruct (Ascii.eqb c x) eqn:E; [|reflexivity].
  apply Ascii.eqb_eq in E. subst x. congruence.
Qed.

Lemma all_digits_no_char x ds :
  is_digit x = false -> all_digits ds = true -> has_char x ds = false.
Proof.
  intros Hx. induction ds as [|c ds IH]; [reflexivity|].
  cbn [all_digits has_char]. intros [Hc Hds]%andb_true_iff.
  rewrite (digit_no_char x c Hc Hx), (IH Hds). reflexivity.
Qed.

Lemma digit_not_ws c : is_digit c = true -> is_ws c = false.
Proof. intros H. by_digit H. Qed.

Lemma trim_start_digits ds : all_digits ds = true -> trim_start ds = ds.
Proof.
  destruct ds as [|c ds]; [reflexivity|].
  cbn [all_digits trim_start]. intros [Hc _]%andb_true_iff.
  rewrite (digit_not_ws c Hc). reflexivity.
Qed.

Lemma trim_end_digits ds : all_digits ds = true -> trim_end ds = ds.
Proof.
  induction ds as [|c ds IH]; [reflexivity|].
  cbn [all_digits trim_end]. intros [Hc Hds]%andb_true_iff.
  rewrite (IH Hds). destruct ds; [rewrite (digit_not_ws c Hc)|]; reflexivity.
Qed.

Lemma span_digits_all ds : all_digits ds = true -> span_digits ds = (ds, "").
Proof.
  induction ds as [|c ds IH]; [reflexivity|].
  cbn [all_digits span_digits]. intros [Hc Hds]%andb_true_iff.
  rewrite Hc, (IH Hds). reflexivity.
Qed.

Lemma non_decimal_digits ds : all_digits ds = true -> non_decimal ds = None.
Proof.
  destruct ds as [|c0 [|p [|c ds]]]; try reflexivity.
  - intros _. destruct c0 as [[] [] [] [] [] [] [] []]; reflexivity.
  - intros _. destruct c0 as [[] [] [] [] [] [] [] []]; reflexivity.
  - cbn [all_digits]. intros [H0 [Hp _]%andb_true_iff]%andb_true_iff.
    destruct c0 as [[] [] [] [] [] [] [] []]; try reflexivity.
    destruct p as [[] [] [] [] [] [] [] []]; try reflexivity; discriminate.
Qed.

Lemma sign_digits c ds :
  is_digit c = true -> sign (String c ds) = (false, String c ds).
Proof. intros H. by_digit H. Qed.

Lemma digits_not_Infinity c ds :
  is_digit c = true -> String.eqb (String c ds) "Infinity" = false.
Proof. intros H. by_digit H. Qed.

(** A non-empty string of decimal digits denotes its value. *)
Lemma Number_digits ds :
  all_digits ds = true -> ds <> "" -> Number ds = Dec false (digits_value ds) 0.
Proof.
  intros Hds Hne. unfold Number.
  rewrite (trim_start_digits ds Hds), (trim_end_digits ds Hds), (non_decimal_digits ds Hds).
  destruct ds as [|c ds]; [congruence|].
  assert (Hc : is_digit c = true).
  { cbn [all_digits] in Hds. apply andb_true_iff in Hds. tauto. }
  rewrite (sign_digits c ds Hc), (digits_not_Infinity c ds Hc).
  change (String.eqb (String c ds) "") with false. cbv iota.
  unfold unsigned_decimal. rewrite (span_digits_all _ Hds).
  cbv iota beta. change (String.eqb (String c ds) "") with false.
  cbn [andb exponent String.length]. rewrite app_empty_r. reflexivity.
Qed.

Lemma all_digits_string_of_uint d : all_digits (NilEmpty.string_of_uint d) = true.
Proof. induction d; cbn [NilEmpty.string_of_uint all_digits]; rewrite ?IHd; reflexivity. Qed.

Lemma to_uint_nonnil n : N.to_uint n <> Decimal.Nil.
Proof. destruct n; [discriminate | apply DecimalPos.Unsigned.to_uint_nonnil]. Qed.

Lemma digits_NilEmpty n : digits n = NilEmpty.string_of_uint (N.to_uint n).
Proof.
  unfold digits, NilZero.string_of_uint.
  pose proof (to_uint_nonnil n). destruct (N.to_uint n); congruence.
Qed.

Lemma all_digits_digits n : all_digits (digits n) = true.
Proof. rewrite digits_NilEmpty. apply all_digits_string_of_uint. Qed.

Lemma digits_nonempty n : digits n <> "".
Proof.
  rewrite digits_NilEmpty. pose proof (to_uint_nonnil n).
  destruct (N.to_uint n); [congruence | discriminate ..].
Qed.

Lemma digits_value_digits n : digits_value (digits n) = n.
Proof.
  unfold digits_value. rewrite digits_NilEmpty, NilEmpty.usu.
  apply DecimalN.Unsigned.of_to.
Qed.

(** [Number(`${n}`)] is [n]. *)
Lemma Number_of_digits n : Number (digits n) = Dec false n 0.
Proof.
  rewrite (Number_digits _ (all_digits_digits n) (digits_nonempty n)), digits_value_digits.
  reflexivity.
Qed.

End NumberFacts.

(** ** Voice sample store *)

Section MapRes.
Context {A B : Type} (f : A -> res B).

Lemma map_res_Ok_inv xs ys :
  map_res f xs = Ok ys -> Forall2 (fun x y => f x = Ok y) xs ys.
Proof.
  revert ys. induction xs as [|x xs IH]; cbn [map_res]; intros ys H.
  - injection H as <-. constructor.
  - apply bind_Ok in H as (y & Hy & H).
    apply bind_Ok in H as (ys' & Hys & H). injection H as <-.
    constructor; auto.
Qed.

Lemma map_res_total xs :
  (forall x, x ∈ xs -> exists y, f x = Ok y) -> exists ys, map_res f xs = Ok ys.
Proof.
  induction xs as [|x xs IH]; intros H; cbn [map_res]; [eauto|].
  destruct (H x) as [y ->]; [left|].
  destruct IH as [ys ->]; [intros z Hz; apply H; right; exact Hz|].
  simpl. eauto.
Qed.

(** An element whose callback throws makes the whole traversal throw, with
    the exception of some element. *)
Lemma map_res_Throw xs x e :
  x ∈ xs -> f x = Throw e ->
  exists e' x', x' ∈ xs /\ f x' = Throw e' /\ map_res f xs = Throw e'.
Proof.
  induction xs as [|z xs IH]; intros Hin Hx; [inversion Hin|].
  cbn [map_res]. destruct (f z) as [y|e1] eqn:Hz.
  - assert (Hin' : x ∈ xs).
    { apply elem_of_cons in Hin as [->|Hin]; [congruence | exact Hin]. }
    destruct (IH Hin' Hx) as (e' & x' & Hx' & Hfx' & ->).
    exists e', x'. split_and!; [right; exact Hx' | exact Hfx' | reflexivity].
  - exists e1, z. split_and!; [left | exact Hz | reflexivity].
Qed.

Lemma Forall2_elem_l (P : A -> B -> Prop) xs ys x :
  Forall2 P xs ys -> x ∈ xs -> exists y, y ∈ ys /\ P x y.
Proof.
  induction 1 as [|x0 y0 xs ys HP _ IH]; intros Hin; [inversion Hin|].
  apply elem_of_cons in Hin as [->|Hin].
  - exists y0. split; [left | exact HP].
  - destruct (IH Hin) as (y & Hy & HPy). exists y. split; [right; exact Hy | exact HPy].
Qed.

End MapRes.

Section VoiceFacts.
Import Str Num Voice.

Lemma elem_of_readdirSync (d : gmap string blob) f :
  f ∈ readdirSync d <-> is_Some (d !! f).
Proof.
  unfold readdirSync. rewrite list_elem_of_fmap. split.
  - intros ([f' b] & -> & H). apply elem_of_map_to_list in H. simpl. eauto.
  - intros [b H]. exists (f, b). split; [reflexivity|]. apply elem_of_map_to_list, H.
Qed.

(** The files that the listing describes. *)
Lemma elem_of_listed (d : gmap string blob) f :
  f ∈ filter (fun f => endsWith f ".webm" = true) (readdirSync d) <->
  endsWith f ".webm" = true /\ is_Some (d !! f).
Proof. rewrite list_elem_of_filter, elem_of_readdirSync. reflexivity. Qed.

(** The callback throws nothing but the RangeError of [toISOString]. *)
Lemma describe_Throw f e : describe f = Throw e -> e = RangeError.
Proof.
  unfold describe. destruct (ts_of (parts_of f)) as [[n|]|]; simpl; congruence.
Qed.

Lemma describe_no_timestamp f :
  ts_of (parts_of f) = None ->
  describe f = Ok (Descriptor (part_or_unknown (parts_of f) 0) (part_or_unknown (parts_of f) 1)
                     f ("/voices/" +:+ f) None).
Proof. unfold describe. intros ->. reflexivity. Qed.

(** A missing or empty third segment gives a null timestamp. *)
Lemma absent_timestamp_null f :
  parts_of f !! 2%nat = None \/ parts_of f !! 2%nat = Some "" ->
  exists d, describe f = Ok d /\ d_filename d = f /\ d_timestamp d = None.
Proof.
  intros H. eexists. split; [apply describe_no_timestamp|split; reflexivity].
  unfold ts_of. destruct H as [-> | ->]; reflexivity.
Qed.

Lemma describe_NaN f s :
  parts_of f !! 2%nat = Some s -> s <> "" -> Number s = NaN ->
  describe f = Throw RangeError.
Proof.
  intros Hs Hne Hnan. unfold describe, ts_of. rewrite Hs.
  apply String.eqb_neq in Hne. rewrite Hne, Hnan. reflexivity.
Qed.

(** C3: a listed file whose third segment is not numeric makes the whole
    listing throw the RangeError of [toISOString]; no descriptor with a
    null timestamp is returned for it. *)
Theorem non_numeric_timestamp_fails_listing (d : gmap string blob) f s :
  is_Some (d !! f) ->
  endsWith f ".webm" = true ->
  parts_of f !! 2%nat = Some s ->
  s <> "" ->
  Number s = NaN ->
  Voice.listAll (Some d) = Throw RangeError.
Proof.
  intros Hf Hext Hs Hne Hnan. unfold Voice.listAll.
  assert (Hin : f ∈ filter (fun f => endsWith f ".webm" = true) (readdirSync d)).
  { apply elem_of_listed. auto. }
  destruct (map_res_Throw describe _ f RangeError Hin (describe_NaN f s Hs Hne Hnan))
    as (e' & x' & _ & Hx' & ->).
  rewrite (describe_Throw _ _ Hx'). reflexivity.
Qed.

(** C8: without an audio part, both upload handlers throw a TypeError,
    which the client sees as status 500 and not as a client error; the
    store is left as it was. *)
Theorem upload_without_audio_raises now fs req dir :
  audio req = None ->
  voice_enroll now fs req dir = (Raised TypeError, dir) /\
  voice_check now fs req dir = (Raised TypeError, dir) /\
  http_status (Raised TypeError) = 500%nat /\
  client_error (Raised TypeError) = false.
Proof.
  intros H. unfold voice_enroll, voice_check, voice_handler, upload_single.
  rewrite H. split_and!; reflexivity.
Qed.

End VoiceFacts.

Section VoiceNames.
Import Str Num Voice.

Lemma has_char_app c a b : has_char c (a +:+ b) = has_char c a || has_char c b.
Proof.
  induction a as [|x a IH]; [reflexivity|].
  rewrite app_cons. cbn [has_char]. rewrite IH, orb_assoc. reflexivity.
Qed.

(** The first two segments of a name that starts with [a], an underscore,
    [b] and an underscore, when neither [a] nor [b] has an underscore or a
    dot. *)
Lemma parts_of_two a b t :
  has_char "_" a = false -> has_char "." a = false ->
  has_char "_" b = false -> has_char "." b = false ->
  parts_of (a +:+ String "_" (b +:+ String "_" t))
    = a :: b :: split "_" (remove_first ".webm" t).
Proof.
  intros Ha1 Ha2 Hb1 Hb2. unfold parts_of.
  rewrite (remove_first_pass a _ Ha2).
  change (String "_" (b +:+ String "_" t)) with ("_" +:+ (b +:+ String "_" t)).
  rewrite (remove_first_pass "_" _ eq_refl), (remove_first_pass b _ Hb2).
  change (String "_" t) with ("_" +:+ t).
  rewrite (remove_first_pass "_" _ eq_refl).
  change ("_" +:+ (b +:+ "_" +:+ remove_first ".webm" t))
    with (String "_" (b +:+ String "_" (remove_first ".webm" t))).
  rewrite (split_pass a _ Ha1), (split_pass b _ Hb1). reflexivity.
Qed.

(** The segments of a generated name whose id and type have neither an
    underscore nor a dot. *)
Lemma parts_of_plain sid ty now :
  has_char "_" sid = false -> has_char "." sid = false ->
  has_char "_" ty = false -> has_char "." ty = false ->
  parts_of (sid +:+ "_" +:+ ty +:+ "_" +:+ digits now +:+ ".webm")
    = [sid; ty; digits now].
Proof.
  intros Hs1 Hs2 Ht1 Ht2.
  change (sid +:+ "_" +:+ ty +:+ "_" +:+ digits now +:+ ".webm")
    with (sid +:+ String "_" (ty +:+ String "_" (digits now +:+ ".webm"))).
  rewrite (parts_of_two _ _ _ Hs1 Hs2 Ht1 Ht2).
  rewrite remove_first_suffix, split_plain;
    [reflexivity | | ]; apply all_digits_no_char; auto using all_digits_digits.
Qed.

Lemma valid_time_now now :
  (now <= 8640000000000000)%N -> valid_time (Dec false now 0) = true.
Proof.
  intros H. unfold valid_time. change (0 <=? 0)%Z with true. cbv iota.
  change (10 ^ Z.to_N 0)%N with 1%N. rewrite N.mul_1_r. apply N.leb_le, H.
Qed.

(** The descriptor of a generated name with plain id and type. *)
Lemma describe_plain sid ty now :
  sid <> "" -> ty <> "" ->
  has_char "_" sid = false -> has_char "." sid = false ->
  has_char "_" ty = false -> has_char "." ty = false ->
  (now <= 8640000000000000)%N ->
  describe (sid +:+ "_" +:+ ty +:+ "_" +:+ digits now +:+ ".webm")
    = Ok (Descriptor sid ty (sid +:+ "_" +:+ ty +:+ "_" +:+ digits now +:+ ".webm")
            ("/voices/" +:+ sid +:+ "_" +:+ ty +:+ "_" +:+ digits now +:+ ".webm")
            (Some (IsoOf (Dec false now 0)))).
Proof.
  intros Hs Ht Hs1 Hs2 Ht1 Ht2 Hnow. unfold describe.
  rewrite (parts_of_plain sid ty now Hs1 Hs2 Ht1 Ht2).
  unfold part_or_unknown, ts_of, or_default. cbn [lookup list_lookup].
  apply String.eqb_neq in Hs, Ht. rewrite Hs, Ht.
  pose proof (digits_nonempty now) as Hd. apply String.eqb_neq in Hd. rewrite Hd.
  rewrite Number_of_digits. unfold new_Date. rewrite (valid_time_now now Hnow).
  reflexivity.
Qed.

(** Writing a file whose description succeeds keeps a listing that
    succeeded, and the written file is in it. *)
Lemma listAll_insert dir name b ds0 dsc :
  Voice.listAll dir = Ok ds0 ->
  endsWith name ".webm" = true ->
  describe name = Ok dsc ->
  exists ds, Voice.listAll (Some (<[name := b]> (destination dir))) = Ok ds /\ dsc ∈ ds.
Proof.
  intros Hold Hext Hdsc.
  assert (Hall : forall f, f ∈ filter (fun f => endsWith f ".webm" = true)
                             (readdirSync (<[name := b]> (destination dir))) ->
                           exists y, describe f = Ok y).
  { intros f [Hf [x Hx]]%elem_of_listed.
    destruct (decide (name = f)) as [<-|Hne]; [eauto|].
    rewrite lookup_insert_ne in Hx by exact Hne.
    destruct dir as [d|]; cbn [destination] in Hx; [|rewrite lookup_empty in Hx; discriminate].
    cbn [Voice.listAll] in Hold. apply map_res_Ok_inv in Hold.
    destruct (Forall2_elem_l _ _ _ f Hold) as (y & _ & Hy); [|eauto].
    apply elem_of_listed. eauto. }
  destruct (map_res_total describe _ Hall) as [ds Hds].
  exists ds. split; [exact Hds|].
  apply map_res_Ok_inv in Hds.
  destruct (Forall2_elem_l _ _ _ name Hds) as (y & Hy & Hdy).
  - apply elem_of_listed. split; [exact Hext|]. rewrite lookup_insert_eq. eauto.
  - rewrite Hdsc in Hdy. injection Hdy as <-. exact Hy.
Qed.

(** C4: an enrollment upload whose form carries, ahead of the audio part,
    the student id S42 and the field type = enroll, and whose file write
    completes, is stored as S42_enroll_<digits>.webm, the name the response
    returns; if the listing succeeded before the upload, it succeeds
    afterwards and has a descriptor with student id S42 and type enroll for
    that name. *)
Theorem enroll_with_type_field_listed now fs req dir b ds0 :
  student_id req = Some "S42" ->
  type req = Some "enroll" ->
  audio req = Some b ->
  completes fs = true ->
  (now <= 8640000000000000)%N ->
  Voice.listAll dir = Ok ds0 ->
  exists name dir' ds ts,
    name = "S42_enroll_" +:+ digits now +:+ ".webm" /\
    all_digits (digits now) = true /\ digits now <> "" /\
    voice_enroll now fs req dir
      = (Responded 200 (uploaded "Voice enrolled and saved" name), dir') /\
    Voice.listAll dir' = Ok ds /\
    Descriptor "S42" "enroll" name ("/voices/" +:+ name) ts ∈ ds.
Proof.
  intros Hsid Hty Hb Hfs Hnow Hold.
  pose proof (describe_plain "S42" "enroll" now) as Hd.
  specialize (Hd ltac:(discriminate) ltac:(discriminate)
                 eq_refl eq_refl eq_refl eq_refl Hnow).
  change ("S42" +:+ "_" +:+ "enroll" +:+ "_" +:+ digits now +:+ ".webm")
    with ("S42_enroll_" +:+ digits now +:+ ".webm") in Hd.
  change ("/voices/" +:+ "S42" +:+ "_" +:+ "enroll" +:+ "_" +:+ digits now +:+ ".webm")
    with ("/voices/" +:+ "S42_enroll_" +:+ digits now +:+ ".webm") in Hd.
  assert (Hext : endsWith ("S42_enroll_" +:+ digits now +:+ ".webm") ".webm" = true).
  { rewrite <- app_assoc_str. apply endsWith_app. }
  assert (Hslash : has_char "/" ("S42_enroll_" +:+ digits now +:+ ".webm") = false).
  { rewrite !has_char_app, (all_digits_no_char "/" _ eq_refl (all_digits_digits now)).
    reflexivity. }
  destruct (listAll_insert dir _ b ds0 _ Hold Hext Hd) as (ds & Hds & Hin).
  exists ("S42_enroll_" +:+ digits now +:+ ".webm"),
         (Some (<["S42_enroll_" +:+ digits now +:+ ".webm" := b]> (destination dir))),
         ds, (Some (IsoOf (Dec false now 0))).
  split_and!; auto using all_digits_digits, digits_nonempty.
  unfold voice_enroll, voice_handler, upload_single, filename.
  rewrite Hb, Hsid, Hty, Hfs.
  change (or_default (Some "S42") "unknown" +:+ "_" +:+
          or_default (Some "enroll") "check" +:+ "_" +:+ digits now +:+ ".webm")
    with ("S42_enroll_" +:+ digits now +:+ ".webm").
  rewrite Hslash. reflexivity.
Qed.

End VoiceNames.

Section VoiceSegments.
Import Str Num Voice.

Lemma nonempty_with_sep a rest : String.eqb (a +:+ "_" +:+ rest) "" = false.
Proof. destruct a; reflexivity. Qed.

(** The generated name of an id with an underscore starts with the id's
    first two segments, each followed by an underscore. *)
Lemma filename_two_segments req now a rest b :
  student_id req = Some (a +:+ "_" +:+ rest) ->
  head (split "_" rest) = Some b ->
  has_char "_" b = false /\
  exists t, filename req now = a +:+ String "_" (b +:+ String "_" t).
Proof.
  intros Hsid Hb. unfold filename. rewrite Hsid.
  unfold or_default at 1. rewrite nonempty_with_sep.
  destruct (split_head rest) as (h & tl & Hs & Hh & Hd).
  rewrite Hs in Hb. injection Hb as ->. split; [exact Hh|].
  set (ty := or_default (type req) "check").
  destruct Hd as [-> | [t ->]].
  - exists (ty +:+ "_" +:+ digits now +:+ ".webm").
    rewrite app_assoc_str.
    change (("_" +:+ b) +:+ "_" +:+ ty +:+ "_" +:+ digits now +:+ ".webm")
      with ("_" +:+ (b +:+ "_" +:+ ty +:+ "_" +:+ digits now +:+ ".webm")).
    reflexivity.
  - exists (t +:+ "_" +:+ ty +:+ "_" +:+ digits now +:+ ".webm").
    rewrite app_assoc_str.
    change (("_" +:+ b +:+ String "_" t) +:+ "_" +:+ ty +:+ "_" +:+ digits now +:+ ".webm")
      with (String "_" ((b +:+ String "_" t) +:+ "_" +:+ ty +:+ "_" +:+ digits now +:+ ".webm")).
    rewrite app_assoc_str. reflexivity.
Qed.

(** C10: the listing splits a name at every underscore and reads only its
    first three segments.  For an uploaded sample whose student id has an
    underscore, the first segment is the id cut at its first underscore and
    the second is the next segment of the id, so a descriptor returned for
    that file reports these two (or the default for an empty one) as
    student id and type. *)
Theorem underscore_id_segments req now a rest b :
  student_id req = Some (a +:+ "_" +:+ rest) ->
  has_char "_" a = false ->
  has_char "." a = false ->
  head (split "_" rest) = Some b ->
  has_char "." b = false ->
  parts_of (filename req now) !! 0%nat = Some a /\
  parts_of (filename req now) !! 1%nat = Some b /\
  forall d, describe (filename req now) = Ok d ->
    d_student_id d = or_default (Some a) "unknown" /\
    d_type d = or_default (Some b) "unknown".
Proof.
  intros Hsid Ha1 Ha2 Hb Hb2.
  destruct (filename_two_segments req now a rest b Hsid Hb) as (Hb1 & t & Hname).
  rewrite Hname.
  pose proof (parts_of_two a b t Ha1 Ha2 Hb1 Hb2) as Hparts.
  split_and!; [rewrite Hparts; reflexivity | rewrite Hparts; reflexivity |].
  intros d. unfold describe. rewrite Hparts.
  destruct (ts_of _) as [[n|]|]; simpl; intros H; [|discriminate|];
    injection H as <-; split; reflexivity.
Qed.

End VoiceSegments.

(** ** Instances and counterexamples of the voice store *)

Section VoiceSamples.
Import Str Num Voice.

Lemma non_numeric_timestamp_fails_listing_witness :
  Voice.listAll (Some Sample.dir_abc) = Throw RangeError.
Proof.
  apply (non_numeric_timestamp_fails_listing Sample.dir_abc "S1_enroll_abc.webm" "abc");
    [eexists; reflexivity | reflexivity | reflexivity | discriminate | reflexivity].
Defined.

Lemma upload_without_audio_raises_witness :
  voice_enroll Sample.t0 Sample.disk_ok (Upload (Some "S42") None None) Sample.dir_good
    = (Raised TypeError, Sample.dir_good) /\
  voice_check Sample.t0 Sample.disk_ok (Upload (Some "S42") None None) Sample.dir_good
    = (Raised TypeError, Sample.dir_good) /\
  http_status (Raised TypeError) = 500%nat /\
  client_error (Raised TypeError) = false.
Proof.
  apply (upload_without_audio_raises Sample.t0 Sample.disk_ok
           (Upload (Some "S42") None None) Sample.dir_good).
  reflexivity.
Defined.

(** Against C8: the answer to an upload without audio is not a client
    error. *)
Lemma upload_without_audio_not_client_error :
  client_error
    (voice_enroll Sample.t0 Sample.disk_ok (Upload (Some "S42") None None)
       Sample.dir_good).1 = false /\
  client_error
    (voice_check Sample.t0 Sample.disk_ok (Upload (Some "S42") None None)
       Sample.dir_good).1 = false.
Proof. split; reflexivity. Qed.

Lemma enroll_with_type_field_listed_witness :
  exists name dir' ds ts,
    name = "S42_enroll_" +:+ digits Sample.t0 +:+ ".webm" /\
    all_digits (digits Sample.t0) = true /\ digits Sample.t0 <> "" /\
    voice_enroll Sample.t0 Sample.disk_ok
      (Upload (Some "S42") (Some "enroll") (Some Sample.audio1)) Sample.dir_good
      = (Responded 200 (uploaded "Voice enrolled and saved" name), dir') /\
    Voice.listAll dir' = Ok ds /\
    Descriptor "S42" "enroll" name ("/voices/" +:+ name) ts ∈ ds.
Proof.
  apply (enroll_with_type_field_listed Sample.t0 Sample.disk_ok
           (Upload (Some "S42") (Some "enroll") (Some Sample.audio1)) Sample.dir_good
           Sample.audio1
           [Descriptor "S7" "check" "S7_check_1690000000000.webm"
              "/voices/S7_check_1690000000000.webm"
              (Some (IsoOf (Dec false 1690000000000 0)))]);
    [reflexivity | reflexivity | reflexivity | reflexivity | | reflexivity].
  vm_compute. discriminate.
Defined.

(** Against C4: an enrollment upload without a type field is stored and
    listed as a check sample; and one whose text fields all come after the
    audio part, so that none has arrived when the name is generated, is
    stored as a check sample of an unknown student. *)
Lemma enroll_without_type_field_is_check :
  (exists dir',
     voice_enroll Sample.t0 Sample.disk_ok (Upload (Some "S42") None (Some Sample.audio1)) None
       = (Responded 200
            (uploaded "Voice enrolled and saved" "S42_check_1700000000000.webm"), dir') /\
     (forall ds, "S42_check_1700000000000.webm" <> "S42_enroll_" +:+ ds +:+ ".webm") /\
     Voice.listAll dir'
       = Ok [Descriptor "S42" "check" "S42_check_1700000000000.webm"
               "/voices/S42_check_1700000000000.webm"
               (Some (IsoOf (Dec false 1700000000000 0)))]) /\
  (voice_enroll Sample.t0 Sample.disk_ok (Upload None None (Some Sample.audio1)) None).1
  = Responded 200 (uploaded "Voice enrolled and saved" "unknown_check_1700000000000.webm").
Proof.
  split; [|reflexivity].
  eexists. split_and!; [reflexivity | | reflexivity].
  intros ds H. cbv [String.append] in H. discriminate H.
Qed.

Lemma underscore_id_segments_witness :
  parts_of (filename (Upload (Some "a_b_7") (Some "enroll") (Some Sample.audio1)) Sample.t0)
    !! 0%nat = Some "a" /\
  parts_of (filename (Upload (Some "a_b_7") (Some "enroll") (Some Sample.audio1)) Sample.t0)
    !! 1%nat = Some "b" /\
  forall d,
    describe (filename (Upload (Some "a_b_7") (Some "enroll") (Some Sample.audio1)) Sample.t0)
      = Ok d ->
    d_student_id d = or_default (Some "a") "unknown" /\
    d_type d = or_default (Some "b") "unknown".
Proof.
  apply (underscore_id_segments
           (Upload (Some "a_b_7") (Some "enroll") (Some Sample.audio1)) Sample.t0
           "a" "b_7" "b"); reflexivity.
Defined.

(** Against C10: for the id a_b the listing after the upload throws and
    reports nothing; for the id a_b_7 it reports the type b, while the rest
    of the id after its first underscore is b_7. *)
Lemma underscore_id_not_reported_as_claimed :
  Voice.listAll
    (voice_enroll Sample.t0 Sample.disk_ok
       (Upload (Some "a_b") (Some "enroll") (Some Sample.audio1)) None).2
    = Throw RangeError /\
  Voice.listAll
    (voice_enroll Sample.t0 Sample.disk_ok
       (Upload (Some "a_b_7") (Some "enroll") (Some Sample.audio1)) None).2
    = Ok [Descriptor "a" "b" "a_b_7_enroll_1700000000000.webm"
            "/voices/a_b_7_enroll_1700000000000.webm" (Some (IsoOf (Dec false 7 0)))] /\
  "b" <> "b_7".
Proof. split_and!; [reflexivity | reflexivity | discriminate]. Qed.

End VoiceSamples.


(** * Further properties of the ledger *)

Section LedgerMore.

Variable key : option string.   (* DEVICE_API_KEY, possibly unset *)

Lemma strict_neq_true_iff a b : strict_neq a b = true <-> a <> b.
Proof.
  destruct a as [x|], b as [y|]; simpl; split; try congruence; try discriminate.
  - intros H E. injection E as ->. rewrite String.eqb_refl in H. discriminate.
  - intros H. destruct (String.eqb x y) eqn:E; [|reflexivity].
    apply String.eqb_eq in E. congruence.
Qed.

Lemma get_Throw v f err : get v f = Throw err -> err = TypeError.
Proof. destruct v; simpl; congruence. Qed.

Lemma get0_Throw v err : get0 v = Throw err -> err = TypeError.
Proof. destruct v; simpl; congruence. Qed.

Lemma first_event_Throw b err : first_event b = Throw err -> err = TypeError.
Proof.
  unfold first_event. destruct (get b f_events) as [evs|e1] eqn:E; simpl.
  - apply get0_Throw.
  - intros H. injection H as <-. exact (get_Throw _ _ _ E).
Qed.

Lemma pin_of_Throw ev err : pin_of ev = Throw err -> err = TypeError.
Proof.
  unfold pin_of. destruct (get ev f_extras) as [x|e1] eqn:E; simpl.
  - destruct (truthy x); [apply get_Throw | discriminate].
  - intros H. injection H as <-. exact (get_Throw _ _ _ E).
Qed.

Lemma build_record_Throw now b ev err :
  build_record now b ev = Throw err -> err = TypeError.
Proof.
  unfold build_record.
  destruct (get b f_device_id) as [d|e1] eqn:E1; simpl;
    [|intros H; injection H as <-; exact (get_Throw _ _ _ E1)].
  destruct (get ev f_token_or_pin) as [t|e2] eqn:E2; simpl;
    [|intros H; injection H as <-; exact (get_Throw _ _ _ E2)].
  destruct (pin_of ev) as [p|e3] eqn:E3; simpl;
    [|intros H; injection H as <-; exact (pin_of_Throw _ _ E3)].
  destruct (get ev f_method) as [m|e4] eqn:E4; simpl;
    [discriminate | intros H; injection H as <-; exact (get_Throw _ _ _ E4)].
Qed.

Lemma build_record_Ok_not_nullish now b ev r :
  build_record now b ev = Ok r -> nullish ev = false.
Proof.
  intros H. destruct (build_record_inv _ _ _ _ H) as (d & t & p & m & _ & Ht & _).
  exact (get_Ok_not_nullish _ _ _ Ht).
Qed.

Lemma first_event_Ok_events b ev : first_event b = Ok ev -> exists w, get b f_events = Ok w.
Proof. unfold first_event. intros H. apply bind_Ok in H as (w & Hw & _). eauto. Qed.

(** X1: the answer is 401 exactly when the key header differs from the
    configured key, compared as JavaScript values: with no key configured,
    the requests without the header are the ones that pass. *)
Theorem unauthorized_iff e req st :
  (device_event key e req st).1 = Responded 401 invalid_key <-> x_device_key req <> key.
Proof.
  rewrite <- strict_neq_true_iff. unfold device_event.
  destruct (strict_neq (x_device_key req) key); simpl; [tauto|].
  split; [|discriminate].
  destruct (first_event (body req)); [|discriminate].
  destruct (getWorksheet "Attendance" (workbook st)); [|discriminate].
  destruct (build_record _ _ _); [|discriminate].
  destruct (write_ok e); discriminate.
Qed.

(** One call of the handler, seen through the listing. *)
Lemma device_event_listing e req st recs :
  initialised st = true ->
  Ingest.listAll st = Ok recs ->
  initialised (device_event key e req st).2 = true /\
  has_keys (device_event key e req st).2 = has_keys st /\
  ((added (device_event key e req st).1 = false /\ (device_event key e req st).2 = st) \/
   (added (device_event key e req st).1 = true /\
    exists r, requested_record (e, req) = Ok r /\
              Ingest.listAll (device_event key e req st).2
              = Ok (recs ++ [if has_keys st then record_cells (held e) r
                             else blank_record]))).
Proof.
  intros Hinit Hrecs. unfold device_event, requested_record. simpl.
  destruct (strict_neq (x_device_key req) key); simpl; [auto|].
  destruct (first_event (body req)) as [ev|err] eqn:Hev; simpl.
  2:{ rewrite (first_event_Throw _ _ Hev). auto. }
  pose proof Hinit as Hsh. unfold initialised in Hsh.
  destruct (getWorksheet "Attendance" (workbook st)) as [sh|]; [|discriminate].
  destruct (build_record (now_iso e) (body req) ev) as [r|err] eqn:Hr; simpl.
  2:{ rewrite (build_record_Throw _ _ _ _ Hr). auto. }
  destruct (write_ok e); simpl.
  - destruct (listAll_addRow st (held e) r recs
                (Some (writeFile (reread e) (addRow (held e) "Attendance" r (workbook st))))
                Hinit Hrecs) as (Hl & Hi & Hk).
    split_and!; [assumption | assumption |]. right. split; [reflexivity|]. exists r. auto.
  - destruct (listAll_addRow st (held e) r recs (excelFile st) Hinit Hrecs) as (Hl & Hi & Hk).
    split_and!; [assumption | assumption |]. right. split; [reflexivity|]. exists r. auto.
Qed.

(** X2: one call of the handler on an initialised ledger leaves the
    listing as it was, or adds one record at its end; it adds exactly when
    the outcome is the success response or the exception of the write.  On
    the sheet that this process created the new record has the cells of the
    record the request asked for; on a sheet read from the file it has no
    field.  No earlier record is changed or removed. *)
Theorem device_event_append_only e req st recs :
  initialised st = true ->
  Ingest.listAll st = Ok recs ->
  initialised (device_event key e req st).2 = true /\
  ((added (device_event key e req st).1 = false /\
    Ingest.listAll (device_event key e req st).2 = Ok recs) \/
   (added (device_event key e req st).1 = true /\
    exists r, requested_record (e, req) = Ok r /\
              Ingest.listAll (device_event key e req st).2
              = Ok (recs ++ [if has_keys st then record_cells (held e) r
                             else Record_ JUndef JUndef JUndef JUndef JUndef]))).
Proof.
  intros Hinit Hrecs.
  destruct (device_event_listing e req st recs Hinit Hrecs) as (Hi & _ & Hstep).
  split; [exact Hi|].
  destruct Hstep as [[Ha Hst] | [Ha Hr]]; [left | right].
  - rewrite Hst. auto.
  - split; [exact Ha | exact Hr].
Qed.

(** X3: over any sequence of ingest requests the listing only grows at its
    end, by as many records as there are outcomes of calls that added a
    row. *)
Theorem run_listing_grows reqs : forall st recs,
  initialised st = true ->
  Ingest.listAll st = Ok recs ->
  exists news,
    Ingest.listAll (run key reqs st).2 = Ok (recs ++ news) /\
    length news = length (filter (fun o => added o = true) (run key reqs st).1) /\
    initialised (run key reqs st).2 = true.
Proof.
  induction reqs as [|[e req] reqs IH]; intros st recs Hinit Hrecs.
  - exists []. simpl. rewrite app_nil_r. auto.
  - cbn [run]. cbn [fst snd].
    destruct (device_event_listing e req st recs Hinit Hrecs) as (Hi & _ & Hstep).
    destruct (device_event key e req st) as [o st1] eqn:Hde. cbn [fst snd] in Hi, Hstep.
    destruct Hstep as [[Ha ->] | [Ha (r & _ & Hl)]].
    + destruct (IH st recs Hinit Hrecs) as (news & Hn & Hlen & Hin).
      destruct (run key reqs st) as [os st2]. cbn [fst snd] in *.
      exists news. rewrite filter_cons_False by congruence. auto.
    + destruct (IH st1 _ Hi Hl) as (news & Hn & Hlen & Hin).
      destruct (run key reqs st1) as [os st2]. cbn [fst snd] in *.
      eexists (_ :: news). rewrite filter_cons_True by exact Ha.
      split_and!; [rewrite Hn, <- app_assoc; reflexivity | simpl; congruence | exact Hin].
Qed.

End LedgerMore.

Section LedgerWrites.

Variable key : option string.

Lemma strict_neq_false_iff a b : strict_neq a b = false <-> a = b.
Proof.
  pose proof (strict_neq_true_iff a b) as H.
  destruct (strict_neq a b); split; intros E; try discriminate; try reflexivity.
  - exfalso. apply (proj1 H); [reflexivity | exact E].
  - destruct (decide (a = b)) as [|Hne]; [assumption|].
    apply H in Hne. discriminate.
Qed.

(** X4: when the write fails after a well-formed request, the handler
    throws, and the row it added stays in the workbook: the listing of the
    running process has one more record although the request failed, with
    the cells of the requested record on the sheet that this process
    created and with no field on a sheet read from the file. *)
Theorem failed_write_keeps_row e req st ev recs :
  x_device_key req = key ->
  first_event (body req) = Ok ev ->
  nullish ev = false ->
  initialised st = true ->
  Ingest.listAll st = Ok recs ->
  write_ok e = false ->
  exists r,
    build_record (now_iso e) (body req) ev = Ok r /\
    (device_event key e req st).1 = Raised IOError /\
    Ingest.listAll (device_event key e req st).2
    = Ok (recs ++ [if has_keys st then record_cells (held e) r
                   else Record_ JUndef JUndef JUndef JUndef JUndef]).
Proof.
  intros Hk Hev Hnn Hinit Hrecs Hw.
  destruct (first_event_Ok_events _ _ Hev) as [w Hevs].
  destruct (build_record_total (now_iso e) _ _ _ Hevs Hnn) as [r Hr].
  exists r. split; [exact Hr|].
  apply strict_neq_false_iff in Hk.
  unfold device_event. rewrite Hk, Hev.
  pose proof Hinit as Hsh. unfold initialised in Hsh.
  destruct (getWorksheet "Attendance" (workbook st)) as [sh|]; [|discriminate].
  rewrite Hr, Hw. cbn [fst snd]. split; [reflexivity|].
  apply (listAll_addRow st (held e) r recs (excelFile st) Hinit Hrecs).
Qed.

Lemma has_keys_addRow hd r st disk :
  has_keys st = true -> has_keys (State (addRow hd "Attendance" r (workbook st)) disk) = true.
Proof.
  unfold has_keys. cbn [workbook].
  destruct (getWorksheet "Attendance" (workbook st)) as [sh|] eqn:E; [|discriminate].
  rewrite (getWorksheet_addRow hd _ r _ _ E). destruct sh; [reflexivity | discriminate].
Qed.

(** X5: a successful append on the sheet that this process created writes
    the whole workbook, whatever the file held before: a restart from the
    file lists every record that the running process listed, rows of
    earlier failed writes included, in the same order, each field as the
    file gives it back. *)
Theorem saved_append_syncs e req st st' :
  has_keys st = true ->
  device_event key e req st = (Responded 200 saved, st') ->
  excelFile st' = Some (writeFile (reread e) (workbook st')) /\
  exists recs,
    Ingest.listAll st' = Ok recs /\
    Ingest.listAll (restart st') = Ok (map (record_image (reread e)) recs).
Proof.
  intros Hkeys H. destruct (device_event_saved key _ _ _ _ H) as (r & Hr & _ & ->).
  split; [reflexivity|].
  pose proof (has_keys_addRow (held e) r st
                (Some (writeFile (reread e) (addRow (held e) "Attendance" r (workbook st))))
                Hkeys) as Hk'.
  destruct (Ingest.listAll
              (State (addRow (held e) "Attendance" r (workbook st))
                 (Some (writeFile (reread e) (addRow (held e) "Attendance" r (workbook st))))))
    as [recs|err] eqn:Hl.
  - exists recs. split; [reflexivity|].
    exact (listAll_restart_keyed _ (reread e) recs Hk' eq_refl Hl).
  - unfold has_keys in Hk'. unfold Ingest.listAll in Hl.
    destruct (getWorksheet "Attendance" _); discriminate.
Qed.

(** X6: the handler throws nothing but a TypeError, which leaves the state
    untouched, or the error of the write, which comes after [addRow] has
    run on the workbook. *)
Theorem raised_kinds e req st err st' :
  device_event key e req st = (Raised err, st') ->
  (err = TypeError /\ st' = st) \/
  (err = IOError /\ write_ok e = false /\
   exists r, requested_record (e, req) = Ok r /\
             workbook st' = addRow (held e) "Attendance" r (workbook st)).
Proof.
  unfold device_event, requested_record. simpl.
  destruct (strict_neq (x_device_key req) key); [discriminate|].
  destruct (first_event (body req)) as [ev|e1] eqn:Hev; simpl.
  2:{ intros H. injection H as <- <-. left. split; [exact (first_event_Throw _ _ Hev) | reflexivity]. }
  destruct (getWorksheet "Attendance" (workbook st)) as [sh|].
  2:{ intros H. injection H as <- <-. auto. }
  destruct (build_record (now_iso e) (body req) ev) as [r|e2] eqn:Hr.
  2:{ intros H. injection H as <- <-. left.
      split; [exact (build_record_Throw _ _ _ _ Hr) | reflexivity]. }
  destruct (write_ok e); [discriminate|].
  intros H. injection H as <- <-. right. split_and!; [reflexivity | reflexivity |].
  exists r. auto.
Qed.

(** X18: on a ledger read from an existing file the sheet has no column
    keys, so the record that a successful ingest appends has no field; the
    row has no cell and is not written, so after a restart it is gone. *)
Theorem loaded_ledger_appends_blank e req st st' recs :
  has_keys st = false ->
  initialised st = true ->
  Ingest.listAll st = Ok recs ->
  device_event key e req st = (Responded 200 saved, st') ->
  Ingest.listAll st' = Ok (recs ++ [Record_ JUndef JUndef JUndef JUndef JUndef]) /\
  exists recs',
    Ingest.listAll (restart st') = Ok recs' /\ length recs' <= length recs.
Proof.
  intros Hkeys Hinit Hrecs H.
  destruct (device_event_saved key _ _ _ _ H) as (r & Hr & _ & ->).
  destruct (listAll_addRow st (held e) r recs
              (Some (writeFile (reread e) (addRow (held e) "Attendance" r (workbook st))))
              Hinit Hrecs) as (Hl & _ & _).
  rewrite Hkeys in Hl. split; [exact Hl|].
  unfold has_keys in Hkeys. unfold initialised in Hinit. unfold Ingest.listAll in Hrecs.
  destruct (getWorksheet "Attendance" (workbook st)) as [[rows|rows blanks]|] eqn:Hsh;
    try discriminate.
  injection Hrecs as <-.
  rewrite (listAll_restart_written (reread e) _ _ (getWorksheet_addRow (held e) _ r _ _ Hsh)).
  eexists. split; [reflexivity|].
  cbn [sheet_addRow written_rows sheet_rows].
  rewrite !length_map, !length_drop, length_app. lia.
Qed.

(** X7: while the workbook has no Attendance sheet, as before [initExcel]
    has completed, a request with the right key throws a TypeError and adds
    nothing, and the dashboard throws as well. *)
Theorem no_sheet_raises e req st :
  getWorksheet "Attendance" (workbook st) = None ->
  x_device_key req = key ->
  device_event key e req st = (Raised TypeError, st) /\
  api_attendance st = Raised TypeError.
Proof.
  intros Hsh Hk. apply strict_neq_false_iff in Hk.
  unfold api_attendance, Ingest.listAll, device_event. rewrite Hk, Hsh.
  split; [|reflexivity].
  destruct (first_event (body req)) as [ev|e1] eqn:Hev; [reflexivity|].
  rewrite (first_event_Throw _ _ Hev). reflexivity.
Qed.

(** X8: the handler answers with the success response exactly when the key
    matches, [req.body.events[0]] can be read and is neither null nor
    undefined, the Attendance sheet exists and the write completes.  Nothing
    else about the payload is checked. *)
Theorem saved_iff e req st :
  (device_event key e req st).1 = Responded 200 saved <->
  x_device_key req = key /\
  (exists ev, first_event (body req) = Ok ev /\ nullish ev = false) /\
  is_Some (getWorksheet "Attendance" (workbook st)) /\
  write_ok e = true.
Proof.
  rewrite <- strict_neq_false_iff. unfold device_event.
  destruct (strict_neq (x_device_key req) key); simpl.
  { split; [discriminate | intros [H _]; discriminate]. }
  destruct (first_event (body req)) as [ev|e1] eqn:Hev; simpl.
  2:{ split; [discriminate | intros (_ & (ev & H & _) & _); discriminate]. }
  destruct (getWorksheet "Attendance" (workbook st)) as [sh|]; simpl.
  2:{ split; [discriminate | intros (_ & _ & [x H] & _); discriminate]. }
  destruct (build_record (now_iso e) (body req) ev) as [r|e2] eqn:Hr; simpl.
  - destruct (write_ok e); simpl.
    + split; [intros _|reflexivity].
      split_and!; eauto using build_record_Ok_not_nullish.
    + split; [discriminate | intros (_ & _ & _ & H); discriminate].
  - split; [discriminate|]. intros (_ & (ev' & H & Hnn) & _).
    injection H as <-.
    destruct (first_event_Ok_events _ _ Hev) as [w Hw].
    destruct (build_record_total (now_iso e) _ _ _ Hw Hnn) as [r Hr'].
    congruence.
Qed.

End LedgerWrites.

(** * Further properties of the voice sample store *)

Section MapResMore.
Context {A B : Type} (f : A -> res B).

Lemma map_res_Throw_inv xs e :
  map_res f xs = Throw e -> exists x, x ∈ xs /\ f x = Throw e.
Proof.
  induction xs as [|z xs IH]; cbn [map_res]; [discriminate|].
  destruct (f z) as [y|e1] eqn:Hz; simpl.
  - destruct (map_res f xs) as [ys|e2]; simpl; [discriminate|].
    intros H. injection H as <-. destruct (IH eq_refl) as (x & Hx & Hfx).
    exists x. split; [right; exact Hx | exact Hfx].
  - intros H. injection H as <-. exists z. split; [left | exact Hz].
Qed.

Lemma map_res_Permutation xs xs' :
  xs ≡ₚ xs' -> forall ys, map_res f xs = Ok ys ->
  exists ys', map_res f xs' = Ok ys' /\ ys ≡ₚ ys'.
Proof.
  induction 1 as [|x l l' _ IH|x y l|l l' l'' _ IH1 _ IH2]; intros ys Hys.
  - exists ys. auto.
  - cbn [map_res] in *. apply bind_Ok in Hys as (y & Hy & Hys).
    apply bind_Ok in Hys as (ys0 & Hys0 & Hys). injection Hys as <-.
    destruct (IH _ Hys0) as (ys' & -> & Hp). rewrite Hy. simpl.
    exists (y :: ys'). split; [reflexivity | constructor; exact Hp].
  - cbn [map_res] in *. apply bind_Ok in Hys as (b1 & Hb1 & Hys).
    apply bind_Ok in Hys as (ys1 & Hys1 & Hys). injection Hys as <-.
    apply bind_Ok in Hys1 as (b2 & Hb2 & Hys1).
    apply bind_Ok in Hys1 as (ys0 & Hys0 & Hys1). injection Hys1 as <-.
    rewrite Hb2, Hb1, Hys0. simpl. exists (b2 :: b1 :: ys0).
    split; [reflexivity | apply perm_swap].
  - destruct (IH1 _ Hys) as (ys1 & Hys1 & Hp1).
    destruct (IH2 _ Hys1) as (ys2 & Hys2 & Hp2).
    exists ys2. split; [exact Hys2 | etrans; eassumption].
Qed.

End MapResMore.

Section VoiceListing.
Import Str Num Voice.

Lemma or_default_nonempty s dflt : dflt <> "" -> or_default s dflt <> "".
Proof.
  intros Hd. unfold or_default. destruct s as [x|]; [|exact Hd].
  destruct (String.eqb x "") eqn:E; [exact Hd | apply String.eqb_neq, E].
Qed.

Lemma describe_Ok_fields f dsc :
  describe f = Ok dsc ->
  d_filename dsc = f /\ d_url dsc = "/voices/" +:+ f /\
  d_student_id dsc <> "" /\ d_type dsc <> "".
Proof.
  unfold describe. intros H. apply bind_Ok in H as (t & _ & H). injection H as <-.
  cbn [d_filename d_url d_student_id d_type].
  split_and!; try reflexivity; apply or_default_nonempty; discriminate.
Qed.

(** X9: a listing that succeeds has one descriptor for each file of the
    directory whose name ends in .webm, in the order of the directory, and
    no other; each descriptor has the url /voices/<filename> and a
    non-empty student id and type. *)
Theorem listing_one_descriptor_per_file (d : gmap string blob) ds :
  Voice.listAll (Some d) = Ok ds ->
  d_filename <$> ds = filter (fun f => endsWith f ".webm" = true) (readdirSync d) /\
  Forall (fun dsc => d_url dsc = "/voices/" +:+ d_filename dsc /\
                     d_student_id dsc <> "" /\ d_type dsc <> "") ds.
Proof.
  cbn [Voice.listAll]. intros H. apply map_res_Ok_inv in H.
  induction H as [|f dsc fs ds Hd _ [IH1 IH2]]; [split; constructor|].
  destruct (describe_Ok_fields _ _ Hd) as (Hn & Hu & Hs & Ht).
  split.
  - rewrite fmap_cons, Hn, IH1. reflexivity.
  - constructor; [|exact IH2]. rewrite Hn. auto.
Qed.

Lemma describe_Throw_iff f e :
  describe f = Throw e <->
  e = RangeError /\
  exists s, parts_of f !! 2%nat = Some s /\ s <> "" /\ valid_time (Number s) = false.
Proof.
  unfold describe, ts_of, new_Date.
  destruct (parts_of f !! 2%nat) as [s|]; simpl.
  2:{ split; [discriminate | intros (_ & s & H & _); discriminate]. }
  destruct (String.eqb s "") eqn:E; simpl.
  { apply String.eqb_eq in E. split; [discriminate|].
    intros (_ & s' & H & Hne & _). congruence. }
  apply String.eqb_neq in E.
  destruct (valid_time (Number s)) eqn:V; simpl.
  - split; [discriminate|]. intros (_ & s' & H & _ & V'). congruence.
  - split.
    + intros H. injection H as <-. split; [reflexivity|]. exists s. auto.
    + intros [-> _]. reflexivity.
Qed.

(** X10: the listing fails exactly when some file ending in .webm has a
    non-empty third segment that is not a number within the range of a
    date (at most 8.64e15 in magnitude); the failure is the RangeError of
    [toISOString], and one such file is enough to lose the whole listing. *)
Theorem listing_fails_iff (d : gmap string blob) e :
  Voice.listAll (Some d) = Throw e <->
  e = RangeError /\
  exists f s,
    is_Some (d !! f) /\ endsWith f ".webm" = true /\
    parts_of f !! 2%nat = Some s /\ s <> "" /\ valid_time (Number s) = false.
Proof.
  cbn [Voice.listAll]. split.
  - intros H. apply map_res_Throw_inv in H as (f & Hin & Hf).
    apply elem_of_listed in Hin as [Hext Hd].
    apply describe_Throw_iff in Hf as (-> & s & Hs & Hne & Hv).
    split; [reflexivity|]. exists f, s. auto.
  - intros (-> & f & s & Hd & Hext & Hs & Hne & Hv).
    assert (Hf : describe f = Throw RangeError).
    { apply describe_Throw_iff. split; [reflexivity|]. exists s. auto. }
    assert (Hin : f ∈ filter (fun f => endsWith f ".webm" = true) (readdirSync d)).
    { apply elem_of_listed. auto. }
    destruct (map_res_Throw describe _ f RangeError Hin Hf) as (e' & x' & _ & Hx' & ->).
    rewrite (describe_Throw _ _ Hx'). reflexivity.
Qed.

Lemma listed_insert_other (d : gmap string blob) f b :
  endsWith f ".webm" = false ->
  filter (fun f => endsWith f ".webm" = true) (readdirSync (<[f := b]> d))
  ≡ₚ filter (fun f => endsWith f ".webm" = true) (readdirSync d).
Proof.
  intros Hext. apply NoDup_Permutation.
  - apply NoDup_filter, NoDup_fst_map_to_list.
  - apply NoDup_filter, NoDup_fst_map_to_list.
  - intros x. rewrite !elem_of_listed.
    destruct (decide (f = x)) as [<-|Hne].
    + rewrite Hext. split; intros [H _]; discriminate.
    + rewrite lookup_insert_ne by exact Hne. reflexivity.
Qed.

(** X11: a file whose name does not end in .webm is invisible to the
    listing: writing one into the directory leaves a successful listing
    with the same descriptors, and cannot make it fail. *)
Theorem non_webm_ignored (d : gmap string blob) f b ds :
  endsWith f ".webm" = false ->
  Voice.listAll (Some d) = Ok ds ->
  exists ds', Voice.listAll (Some (<[f := b]> d)) = Ok ds' /\ ds' ≡ₚ ds.
Proof.
  intros Hext Hds. cbn [Voice.listAll] in *.
  destruct (map_res_Permutation describe _ _ (symmetry (listed_insert_other d f b Hext))
              ds Hds) as (ds' & Hds' & Hp).
  exists ds'. split; [exact Hds' | symmetry; exact Hp].
Qed.

End VoiceListing.

Section VoiceUploads.
Import Str Num Voice.

Lemma valid_time_Dec0 n :
  valid_time (Dec false n 0) = (n <=? 8640000000000000)%N.
Proof.
  unfold valid_time. change (0 <=? 0)%Z with true. cbv iota.
  change (10 ^ Z.to_N 0)%N with 1%N. rewrite N.mul_1_r. reflexivity.
Qed.

(** X12: a generated name whose id and type have neither underscore nor
    dot is read back with that id and type; its timestamp is read back when
    the number of milliseconds is at most 8.64e15, and beyond that bound the
    description of the file throws. *)
Theorem timestamp_bound sid ty n :
  sid <> "" -> ty <> "" ->
  has_char "_" sid = false -> has_char "." sid = false ->
  has_char "_" ty = false -> has_char "." ty = false ->
  describe (sid +:+ "_" +:+ ty +:+ "_" +:+ digits n +:+ ".webm")
  = if (n <=? 8640000000000000)%N
    then Ok (Descriptor sid ty (sid +:+ "_" +:+ ty +:+ "_" +:+ digits n +:+ ".webm")
               ("/voices/" +:+ sid +:+ "_" +:+ ty +:+ "_" +:+ digits n +:+ ".webm")
               (Some (IsoOf (Dec false n 0))))
    else Throw RangeError.
Proof.
  intros Hs Ht Hs1 Hs2 Ht1 Ht2. unfold describe.
  rewrite (parts_of_plain sid ty n Hs1 Hs2 Ht1 Ht2).
  unfold part_or_unknown, ts_of, or_default. cbn [lookup list_lookup].
  apply String.eqb_neq in Hs, Ht. rewrite Hs, Ht.
  pose proof (digits_nonempty n) as Hd. apply String.eqb_neq in Hd. rewrite Hd.
  rewrite Number_of_digits. unfold new_Date. rewrite valid_time_Dec0.
  destruct (n <=? 8640000000000000)%N; reflexivity.
Qed.

(** X13: upload then listing, on either upload route.  When the id and the
    type used for the name (the defaults "unknown" and "check" standing in
    for a field that is missing, empty, or sent after the audio part) have
    no underscore, dot or slash, the write completes, and the listing
    succeeded before, the listing after the upload succeeds and has the
    descriptor with that id, that type, the returned file name and the time
    of the upload. *)
Theorem upload_round_trip message now fs req dir b ds0 :
  audio req = Some b ->
  completes fs = true ->
  has_char "_" (or_default (student_id req) "unknown") = false ->
  has_char "." (or_default (student_id req) "unknown") = false ->
  has_char "/" (or_default (student_id req) "unknown") = false ->
  has_char "_" (or_default (type req) "check") = false ->
  has_char "." (or_default (type req) "check") = false ->
  has_char "/" (or_default (type req) "check") = false ->
  (now <= 8640000000000000)%N ->
  Voice.listAll dir = Ok ds0 ->
  exists ds,
    voice_handler message now fs req dir
      = (Responded 200 (uploaded message (filename req now)),
         Some (<[filename req now := b]> (destination dir))) /\
    Voice.listAll (Some (<[filename req now := b]> (destination dir))) = Ok ds /\
    Descriptor (or_default (student_id req) "unknown") (or_default (type req) "check")
      (filename req now) ("/voices/" +:+ filename req now)
      (Some (IsoOf (Dec false now 0))) ∈ ds.
Proof.
  intros Hb Hfs Hs1 Hs2 Hs3 Ht1 Ht2 Ht3 Hnow Hold.
  pose proof (describe_plain _ _ now
                (or_default_nonempty (student_id req) "unknown" ltac:(discriminate))
                (or_default_nonempty (type req) "check" ltac:(discriminate))
                Hs1 Hs2 Ht1 Ht2 Hnow) as Hd.
  assert (Hext : endsWith (filename req now) ".webm" = true).
  { unfold filename. rewrite <- !app_assoc_str. apply endsWith_app. }
  assert (Hslash : has_char "/" (filename req now) = false).
  { unfold filename.
    rewrite !has_char_app, Hs3, Ht3, (all_digits_no_char "/" _ eq_refl (all_digits_digits now)).
    reflexivity. }
  destruct (listAll_insert dir (filename req now) b ds0 _ Hold Hext Hd) as (ds & Hds & Hin).
  exists ds. split_and!; [|exact Hds|exact Hin].
  unfold voice_handler, upload_single. rewrite Hb, Hfs, Hslash. reflexivity.
Qed.

(** X14: there is no collision check: when two uploads generate the same
    name, a name without slash, and both writes complete, the second
    replaces the content of the first, and the directory is as if the first
    upload had not happened. *)
Theorem upload_overwrites_same_name now1 now2 fs1 fs2 req1 req2 dir b1 b2 :
  audio req1 = Some b1 ->
  audio req2 = Some b2 ->
  completes fs1 = true ->
  completes fs2 = true ->
  has_char "/" (filename req1 now1) = false ->
  filename req1 now1 = filename req2 now2 ->
  (upload_single now2 fs2 req2 (upload_single now1 fs1 req1 dir).2).2
    = (upload_single now2 fs2 req2 dir).2 /\
  exists d, (upload_single now2 fs2 req2 (upload_single now1 fs1 req1 dir).2).2 = Some d /\
            d !! filename req1 now1 = Some b2.
Proof.
  intros H1 H2 Hf1 Hf2 Hslash Hname. unfold upload_single.
  rewrite H1, H2, Hf1, Hf2, <- Hname, Hslash. cbn [fst snd destination].
  rewrite insert_insert_eq. split; [reflexivity|].
  eexists. split; [reflexivity | apply lookup_insert_eq].
Qed.

(** X15: an upload with an audio part whose generated name has no slash
    and whose write completes, on either route: the directory exists
    afterwards, it holds the content under the name that the response
    returns, and no other file is changed. *)
Theorem upload_stores_blob message now fs req dir b :
  audio req = Some b ->
  completes fs = true ->
  has_char "/" (filename req now) = false ->
  exists d,
    voice_handler message now fs req dir
      = (Responded 200 (uploaded message (filename req now)), Some d) /\
    d !! filename req now = Some b /\
    forall f, f <> filename req now -> d !! f = destination dir !! f.
Proof.
  intros Hb Hfs Hslash. unfold voice_handler, upload_single. rewrite Hb, Hfs, Hslash.
  eexists. split_and!; [reflexivity | apply lookup_insert_eq |].
  intros f Hf. apply lookup_insert_ne. congruence.
Qed.

(** X16: the descriptor fields are read from the first three segments
    only: two names with the same first three segments get the same
    student id, type and timestamp, and the description of one succeeds
    when that of the other does. *)
Theorem only_three_segments f f' dsc :
  take 3 (parts_of f) = take 3 (parts_of f') ->
  describe f = Ok dsc ->
  exists dsc',
    describe f' = Ok dsc' /\
    d_student_id dsc' = d_student_id dsc /\
    d_type dsc' = d_type dsc /\
    d_timestamp dsc' = d_timestamp dsc.
Proof.
  intros Htake.
  assert (Hi : forall i, (i < 3)%nat -> parts_of f !! i = parts_of f' !! i).
  { intros i Hi. rewrite <- (lookup_take_lt (parts_of f) 3 i Hi), Htake.
    apply lookup_take_lt, Hi. }
  unfold describe, part_or_unknown, ts_of.
  rewrite (Hi 0%nat), (Hi 1%nat), (Hi 2%nat) by lia.
  intros H. apply bind_Ok in H as (t & Ht & H). injection H as <-.
  rewrite Ht. simpl. eexists. split_and!; reflexivity.
Qed.

(** X17: [replace] removes the first occurrence of .webm, wherever it is:
    for a name with no dot before that occurrence, the segments are those
    of the text before it followed by the text after it.  When the
    occurrence is the extension, these are the segments of the base name;
    otherwise the extension stays in the last segment. *)
Theorem extension_first_occurrence a t :
  has_char "." a = false ->
  parts_of (a +:+ ".webm" +:+ t) = split "_" (a +:+ t).
Proof.
  intros Ha. unfold parts_of. rewrite (remove_first_pass a _ Ha). reflexivity.
Qed.

End VoiceUploads.

(** ** Instances of the further properties on the sample inputs *)

Section MoreSamples.
Import Str Num Voice.

Lemma device_event_append_only_witness :
  added
    (device_event (Some Sample.key) Sample.env1
       (Sample.ingest (Some Sample.key) [Sample.event_pin]) Sample.state_qr).1 = true /\
  Ingest.listAll
    (device_event (Some Sample.key) Sample.env1
       (Sample.ingest (Some Sample.key) [Sample.event_pin]) Sample.state_qr).2
  = Ok [Sample.record_qr; Sample.record_pin].
Proof.
  destruct (device_event_append_only (Some Sample.key) Sample.env1
              (Sample.ingest (Some Sample.key) [Sample.event_pin]) Sample.state_qr
              [Sample.record_qr] eq_refl eq_refl)
    as [_ [[Ha _] | [Ha (r & Hr & Hl)]]]; [discriminate Ha|].
  split; [exact Ha|]. injection Hr as <-. exact Hl.
Defined.

Lemma run_listing_grows_witness :
  exists news,
    Ingest.listAll
      (run (Some Sample.key)
         [(Sample.env1, Sample.ingest (Some Sample.key) [Sample.event_qr]);
          (Sample.env1, Sample.ingest (Some "guess") [Sample.event_qr]);
          (Sample.env_write_fails, Sample.ingest (Some Sample.key) [Sample.event_pin])]
         (start None)).2 = Ok ([] ++ news) /\
    length news =
      length (filter (fun o => added o = true)
                (run (Some Sample.key)
                   [(Sample.env1, Sample.ingest (Some Sample.key) [Sample.event_qr]);
                    (Sample.env1, Sample.ingest (Some "guess") [Sample.event_qr]);
                    (Sample.env_write_fails,
                     Sample.ingest (Some Sample.key) [Sample.event_pin])]
                   (start None)).1) /\
    initialised
      (run (Some Sample.key)
         [(Sample.env1, Sample.ingest (Some Sample.key) [Sample.event_qr]);
          (Sample.env1, Sample.ingest (Some "guess") [Sample.event_qr]);
          (Sample.env_write_fails, Sample.ingest (Some Sample.key) [Sample.event_pin])]
         (start None)).2 = true.
Proof.
  apply (run_listing_grows (Some Sample.key)
           [(Sample.env1, Sample.ingest (Some Sample.key) [Sample.event_qr]);
            (Sample.env1, Sample.ingest (Some "guess") [Sample.event_qr]);
            (Sample.env_write_fails, Sample.ingest (Some Sample.key) [Sample.event_pin])]
           (start None) []); reflexivity.
Defined.

Lemma failed_write_keeps_row_witness :
  (device_event (Some Sample.key) Sample.env_write_fails
     (Sample.ingest (Some Sample.key) [Sample.event_pin]) Sample.state_qr).1
  = Raised IOError /\
  Ingest.listAll
    (device_event (Some Sample.key) Sample.env_write_fails
       (Sample.ingest (Some Sample.key) [Sample.event_pin]) Sample.state_qr).2
  = Ok [Sample.record_qr;
        Record_ (JStr "2026-01-05T08:00:01.000Z") (JStr "D1") (JStr "7") (JStr "4321")
          (JStr "pin")].
Proof.
  destruct (failed_write_keeps_row (Some Sample.key) Sample.env_write_fails
              (Sample.ingest (Some Sample.key) [Sample.event_pin]) Sample.state_qr
              Sample.event_pin [Sample.record_qr]
              eq_refl eq_refl eq_refl eq_refl eq_refl eq_refl)
    as (r & Hr & Ho & Hl).
  injection Hr as <-. split; [exact Ho | exact Hl].
Defined.

Lemma saved_append_syncs_witness :
  excelFile Sample.state_lagging = Some [("Attendance", [header_row])] /\
  Ingest.listAll
    (restart
       (device_event (Some Sample.key) Sample.env1
          (Sample.ingest (Some Sample.key) [Sample.event_pin]) Sample.state_lagging).2)
  = Ok [Sample.record_qr; Sample.record_pin].
Proof.
  destruct (saved_append_syncs (Some Sample.key) Sample.env1
              (Sample.ingest (Some Sample.key) [Sample.event_pin]) Sample.state_lagging
              (device_event (Some Sample.key) Sample.env1
                 (Sample.ingest (Some Sample.key) [Sample.event_pin])
                 Sample.state_lagging).2
              eq_refl eq_refl)
    as (_ & recs & Hl & Hre).
  injection Hl as <-. split; [reflexivity | exact Hre].
Defined.

Lemma loaded_ledger_appends_blank_witness :
  Ingest.listAll
    (device_event (Some Sample.key) Sample.env1
       (Sample.ingest (Some Sample.key) [Sample.event_pin])
       (start (Some Sample.file_qr))).2
  = Ok ([Sample.record_qr] ++ [Record_ JUndef JUndef JUndef JUndef JUndef]) /\
  exists recs',
    Ingest.listAll
      (restart
         (device_event (Some Sample.key) Sample.env1
            (Sample.ingest (Some Sample.key) [Sample.event_pin])
            (start (Some Sample.file_qr))).2) = Ok recs' /\
    length recs' <= length [Sample.record_qr].
Proof.
  apply (loaded_ledger_appends_blank (Some Sample.key) Sample.env1
           (Sample.ingest (Some Sample.key) [Sample.event_pin])
           (start (Some Sample.file_qr))); reflexivity.
Defined.

Lemma raised_kinds_witness :
  (IOError = TypeError /\
   (device_event (Some Sample.key) Sample.env_write_fails
      (Sample.ingest (Some Sample.key) [Sample.event_pin]) Sample.state_qr).2
   = Sample.state_qr) \/
  (IOError = IOError /\ write_ok Sample.env_write_fails = false /\
   exists r,
     requested_record
       (Sample.env_write_fails, Sample.ingest (Some Sample.key) [Sample.event_pin])
       = Ok r /\
     workbook
       (device_event (Some Sample.key) Sample.env_write_fails
          (Sample.ingest (Some Sample.key) [Sample.event_pin]) Sample.state_qr).2
     = addRow (held Sample.env_write_fails) "Attendance" r (workbook Sample.state_qr)).
Proof.
  apply (raised_kinds (Some Sample.key) Sample.env_write_fails
           (Sample.ingest (Some Sample.key) [Sample.event_pin]) Sample.state_qr).
  reflexivity.
Defined.

Lemma no_sheet_raises_witness :
  device_event (Some Sample.key) Sample.env1
    (Sample.ingest (Some Sample.key) [Sample.event_qr]) (State new_Workbook None)
  = (Raised TypeError, State new_Workbook None) /\
  api_attendance (State new_Workbook None) = Raised TypeError.
Proof.
  apply (no_sheet_raises (Some Sample.key) Sample.env1
           (Sample.ingest (Some Sample.key) [Sample.event_qr]) (State new_Workbook None));
    reflexivity.
Defined.

Lemma listing_one_descriptor_per_file_witness :
  d_filename <$>
    [Descriptor "S7" "check" "S7_check_1690000000000.webm"
       "/voices/S7_check_1690000000000.webm" (Some (IsoOf (Dec false 1690000000000 0)))]
  = filter (fun f => endsWith f ".webm" = true)
      (readdirSync (<["notes.txt" := Sample.audio2]>
                      (<["S7_check_1690000000000.webm" := Sample.audio1]> ∅))) /\
  Forall (fun dsc => d_url dsc = "/voices/" +:+ d_filename dsc /\
                     d_student_id dsc <> "" /\ d_type dsc <> "")
    [Descriptor "S7" "check" "S7_check_1690000000000.webm"
       "/voices/S7_check_1690000000000.webm" (Some (IsoOf (Dec false 1690000000000 0)))].
Proof.
  apply (listing_one_descriptor_per_file
           (<["notes.txt" := Sample.audio2]>
              (<["S7_check_1690000000000.webm" := Sample.audio1]> ∅))).
  reflexivity.
Defined.

Lemma non_webm_ignored_witness :
  exists ds',
    Voice.listAll
      (Some (<["notes.txt" := Sample.audio2]>
               (<["S7_check_1690000000000.webm" := Sample.audio1]> ∅))) = Ok ds' /\
    ds' ≡ₚ
      [Descriptor "S7" "check" "S7_check_1690000000000.webm"
         "/voices/S7_check_1690000000000.webm" (Some (IsoOf (Dec false 1690000000000 0)))].
Proof.
  apply (non_webm_ignored (<["S7_check_1690000000000.webm" := Sample.audio1]> ∅)
           "notes.txt" Sample.audio2); reflexivity.
Defined.

Lemma timestamp_bound_witness :
  describe ("S42" +:+ "_" +:+ "enroll" +:+ "_" +:+ digits 8640000000000001 +:+ ".webm")
  = if (8640000000000001 <=? 8640000000000000)%N
    then Ok (Descriptor "S42" "enroll"
               ("S42" +:+ "_" +:+ "enroll" +:+ "_" +:+ digits 8640000000000001 +:+ ".webm")
               ("/voices/" +:+ "S42" +:+ "_" +:+ "enroll" +:+ "_" +:+
                digits 8640000000000001 +:+ ".webm")
               (Some (IsoOf (Dec false 8640000000000001 0))))
    else Throw RangeError.
Proof.
  apply (timestamp_bound "S42" "enroll" 8640000000000001);
    solve [discriminate | reflexivity].
Defined.

Lemma upload_round_trip_witness :
  exists ds,
    voice_handler "Voice sample saved for review" Sample.t0 Sample.disk_ok
      (Upload None (Some "") (Some Sample.audio2)) Sample.dir_good
    = (Responded 200
         (uploaded "Voice sample saved for review"
            (filename (Upload None (Some "") (Some Sample.audio2)) Sample.t0)),
       Some (<[filename (Upload None (Some "") (Some Sample.audio2)) Sample.t0
               := Sample.audio2]> (destination Sample.dir_good))) /\
    Voice.listAll
      (Some (<[filename (Upload None (Some "") (Some Sample.audio2)) Sample.t0
               := Sample.audio2]> (destination Sample.dir_good))) = Ok ds /\
    Descriptor (or_default None "unknown") (or_default (Some "") "check")
      (filename (Upload None (Some "") (Some Sample.audio2)) Sample.t0)
      ("/voices/" +:+ filename (Upload None (Some "") (Some Sample.audio2)) Sample.t0)
      (Some (IsoOf (Dec false Sample.t0 0))) ∈ ds.
Proof.
  apply (upload_round_trip "Voice sample saved for review" Sample.t0 Sample.disk_ok
           (Upload None (Some "") (Some Sample.audio2)) Sample.dir_good Sample.audio2
           [Descriptor "S7" "check" "S7_check_1690000000000.webm"
              "/voices/S7_check_1690000000000.webm"
              (Some (IsoOf (Dec false 1690000000000 0)))]);
    try reflexivity.
  vm_compute. discriminate.
Defined.

Lemma upload_overwrites_same_name_witness :
  (upload_single Sample.t0 Sample.disk_ok
     (Upload (Some "S1") (Some "check") (Some Sample.audio2))
     (upload_single Sample.t0 Sample.disk_ok
        (Upload (Some "S1") None (Some Sample.audio1)) None).2).2
  = (upload_single Sample.t0 Sample.disk_ok
       (Upload (Some "S1") (Some "check") (Some Sample.audio2)) None).2 /\
  exists d,
    (upload_single Sample.t0 Sample.disk_ok
       (Upload (Some "S1") (Some "check") (Some Sample.audio2))
       (upload_single Sample.t0 Sample.disk_ok
          (Upload (Some "S1") None (Some Sample.audio1)) None).2).2
    = Some d /\
    d !! filename (Upload (Some "S1") None (Some Sample.audio1)) Sample.t0
    = Some Sample.audio2.
Proof.
  apply (upload_overwrites_same_name Sample.t0 Sample.t0 Sample.disk_ok Sample.disk_ok
           (Upload (Some "S1") None (Some Sample.audio1))
           (Upload (Some "S1") (Some "check") (Some Sample.audio2)) None
           Sample.audio1 Sample.audio2); reflexivity.
Defined.

Lemma upload_stores_blob_witness :
  exists d,
    voice_handler "Voice enrolled and saved" Sample.t0 Sample.disk_ok
      (Upload (Some "S42") (Some "enroll") (Some Sample.audio1)) None
    = (Responded 200
         (uploaded "Voice enrolled and saved"
            (filename (Upload (Some "S42") (Some "enroll") (Some Sample.audio1)) Sample.t0)),
       Some d) /\
    d !! filename (Upload (Some "S42") (Some "enroll") (Some Sample.audio1)) Sample.t0
    = Some Sample.audio1 /\
    forall f,
      f <> filename (Upload (Some "S42") (Some "enroll") (Some Sample.audio1)) Sample.t0 ->
      d !! f = destination None !! f.
Proof.
  apply (upload_stores_blob "Voice enrolled and saved" Sample.t0 Sample.disk_ok
           (Upload (Some "S42") (Some "enroll") (Some Sample.audio1)) None Sample.audio1);
    reflexivity.
Defined.

Lemma only_three_segments_witness :
  exists dsc',
    describe "a_b_5.webm" = Ok dsc' /\
    d_student_id dsc' = "a" /\ d_type dsc' = "b" /\
    d_timestamp dsc' = Some (IsoOf (Dec false 5 0)).
Proof.
  apply (only_three_segments "a_b_5_x_y.webm" "a_b_5.webm"
           (Descriptor "a" "b" "a_b_5_x_y.webm" "/voices/a_b_5_x_y.webm"
              (Some (IsoOf (Dec false 5 0))))); reflexivity.
Defined.

Lemma extension_first_occurrence_witness :
  parts_of ("a" +:+ ".webm" +:+ "_b_1.webm") = split "_" ("a" +:+ "_b_1.webm").
Proof. apply (extension_first_occurrence "a" "_b_1.webm"). reflexivity. Defined.

End MoreSamples.
